(** * ado_batch_creator: creation of user stories and their tasks

    A shallow embedding of [main.go] and of the records of package
    [models].  The program reads a list of user stories, creates each of
    them in Azure DevOps with one HTTP request, reads the identifier the
    service assigned, and creates every task of the story with a further
    request that links the task to that identifier.

    What the Go code obtains from outside the repository is kept outside
    the model as well: the viper configuration is a finite map from keys
    to strings, and the HTTP client, the JSON decoder and the request
    constructor are the fields of an environment [Env] that every
    function takes.  The theorems quantify over the environment; the
    examples run the program in the small world of module [Sample]. *)

From Stdlib Require Import ZArith String Ascii List.
From Stdlib Require Import DecimalString DecimalZ.
From Stdlib Require Import Floats.SpecFloat.
From stdpp Require Import base option list strings gmap.

Open Scope string_scope.
Open Scope list_scope.
Open Scope Z_scope.

(** ** Package [models] *)

Module Task.
(** [models.Task]; [Type] is a keyword, hence [Type_]. *)
Record t := mk {
  Name : string;
  Type_ : string;
  Description : string;
  Owner : string;
  State : string;
  Priority : Z;
  Estimate : Z
}.
End Task.

Module UserStory.
(** [models.UserStory]; [Iteraction] is a [*string]. *)
Record t := mk {
  Name : string;
  Type_ : string;
  Description : string;
  Owner : string;
  State : string;
  Priority : Z;
  Area : string;
  Path : string;
  Tasks : list Task.t;
  Iteraction : option string;
  Team : string
}.
End UserStory.

(** ** Errors

    A Go [error] as the program builds and reads it: [errors.New]-like
    values and the wrapper that [fmt.Errorf] returns for a [%w] verb,
    which keeps the wrapped error next to the formatted text. *)

Inductive error :=
| errorString (s : string)
| wrapError (msg : string) (err : error).

Definition Error (e : error) : string :=
  match e with
  | errorString s => s
  | wrapError msg _ => msg
  end.

Definition Unwrap (e : error) : option error :=
  match e with
  | errorString _ => None
  | wrapError _ err => Some err
  end.

(** [fmt.Errorf(prefix + "%w", err)]. *)
Definition Errorf_w (prefix : string) (err : error) : error :=
  wrapError (prefix +:+ Error err) err.

(** ** Formatting *)

(** The [%d] verb on an [int]. *)
Definition itoa (n : Z) : string := NilZero.string_of_int (Z.to_int n).

(** ** JSON values as [encoding/json] decodes them into [interface{}]

    Numbers decode to [float64]; a float64 is a [spec_float] of the
    Standard Library (sign, mantissa, binary exponent). *)

#[local] Unset Elimination Schemes.
Inductive JValue :=
| JNull
| JBool (b : bool)
| JNumber (f : spec_float)
| JString (s : string)
| JArray (l : list JValue)
| JObject (m : gmap string JValue).
#[local] Set Elimination Schemes.

(** The conversion [int(f)] of a [float64]: the fraction is discarded
    (truncation towards zero).  When the value does not fit in an [int]
    the Go specification leaves the result to the implementation; the
    amd64 compiler yields the smallest [int], which is used here. *)
Definition min_int : Z := - 2 ^ 63.
Definition max_int : Z := 2 ^ 63 - 1.

Definition float64_to_int (f : spec_float) : Z :=
  match f with
  | S754_zero _ => 0
  | S754_infinity _ => min_int
  | S754_nan => min_int
  | S754_finite s m e =>
      let mag := if 0 <=? e then Z.pos m * 2 ^ e else Z.pos m / 2 ^ (- e) in
      let v := if s then - mag else mag in
      if (min_int <=? v) && (v <=? max_int) then v else min_int
  end.

(** The dynamic type of an [interface{}] read from a decoded object, as
    the runtime prints it when a type assertion fails.  A key that is
    absent and a key bound to JSON [null] both read as the nil
    interface. *)
Definition dynamic_type (v : option JValue) : string :=
  match v with
  | None | Some JNull => "nil"
  | Some (JBool _) => "bool"
  | Some (JNumber _) => "float64"
  | Some (JString _) => "string"
  | Some (JArray _) => "[]interface {}"
  | Some (JObject _) => "map[string]interface {}"
  end.

(** ** The patch document

    One element of the payload, a Go map with the keys [op], [path] and
    [value].  A value is a string, an [int], or the nested map of a
    relation with its [rel], its [url] and the [comment] attribute. *)

Inductive Value :=
| VString (s : string)
| VInt (n : Z)
| VRelation (rel url comment : string).

Record Operation := mkOp {
  op : string;
  path : string;
  value : Value
}.

(** ** HTTP

    The request as the program prepares it: method, URL, the
    [Content-Type] header, the basic-auth pair and the body.  The body is
    kept as the patch document it serialises: [json.Marshal] cannot fail
    on a slice of maps that hold only strings, ints and maps of strings,
    so the wire bytes are a function of this document and the error
    branch after [json.Marshal] is never taken. *)

Record Request := mkRequest {
  Method : string;
  URL : string;
  ContentType : string;
  BasicAuth : string * string;
  Body : list Operation
}.

Record Response := mkResponse {
  Status : string;
  StatusCode : Z;
  RespBody : string
}.

Definition StatusOK : Z := 200.
Definition StatusCreated : Z := 201.

(** ** The environment

    - [client_Do] is the remote service seen through [http.Client.Do]:
      given the requests sent so far (oldest first) and the request at
      hand it yields a transport error or a response;
    - [json_Decode] is [json.NewDecoder(body).Decode(&m)] for a
      [map[string]interface{}]: a decoding error or the decoded object;
    - [http_NewRequestWithContext] is the verdict of the request
      constructor on a method and a URL: [Some err] when it refuses
      them.  The context is [context.Background()], never cancelled. *)

Record Env := mkEnv {
  client_Do : list Request -> Request -> error + Response;
  json_Decode : string -> error + gmap string JValue;
  http_NewRequestWithContext : string -> string -> option error
}.

(** The viper configuration: [GetString] of a key that is not set is the
    empty string. *)
Definition GetString (cfg : gmap string string) (key : string) : string :=
  default EmptyString (cfg !! key).

(** ** The machine: what a run leaves behind

    The requests handed to the HTTP client, oldest first, and the calls
    made on the logger. *)

Inductive Level := DebugLevel | InfoLevel | ErrorLevel.

Record LogEntry := mkLog {
  level : Level;
  message : string;
  fields : list (string * string)
}.

Record Machine := mkMachine {
  sent : list Request;
  logged : list LogEntry
}.

Definition start : Machine := {| sent := []; logged := [] |}.

(** A Go call either returns or panics; nothing in the program recovers
    a panic, so a panic ends the process. *)
Inductive Outcome (A : Type) :=
| Returns (a : A)
| Panics (v : string).
Arguments Returns {A} a.
Arguments Panics {A} v.

Definition Go (A : Type) : Type := Machine -> Outcome A * Machine.

Definition ret {A} (a : A) : Go A := fun s => (Returns a, s).

Definition bind {A B} (m : Go A) (k : A -> Go B) : Go B :=
  fun s =>
    match m s with
    | (Returns a, s') => k a s'
    | (Panics v, s') => (Panics v, s')
    end.

Definition panic {A} (v : string) : Go A := fun s => (Panics v, s).

Notation "x <- m ;; k" := (bind m (fun x => k))
  (at level 100, m at next level, right associativity).
Notation "m ;;; k" := (bind m (fun _ => k))
  (at level 100, right associativity).

Definition log (l : Level) (msg : string) (fs : list (string * string)) : Go unit :=
  fun s => (Returns tt,
            {| sent := sent s;
               logged := logged s ++ [{| level := l; message := msg; fields := fs |}] |}).

(** [client.Do(req)]: the request goes out and the service answers from
    what it has received before. *)
Definition Do (env : Env) (req : Request) : Go (error + Response) :=
  fun s => (Returns (client_Do env (sent s) req),
            {| sent := sent s ++ [req]; logged := logged s |}).

(** [for _, x := range xs { body }] *)
Fixpoint for_range {A} (xs : list A) (body : A -> Go unit) : Go unit :=
  match xs with
  | [] => ret tt
  | x :: xs' => body x ;;; for_range xs' body
  end.

(** The unchecked type assertions [v.(string)] and [v.(float64)]. *)
Definition assert_string (v : option JValue) : Go string :=
  match v with
  | Some (JString s) => ret s
  | _ => panic ("interface conversion: interface {} is "
                +:+ dynamic_type v +:+ ", not string")
  end.

Definition assert_float64 (v : option JValue) : Go spec_float :=
  match v with
  | Some (JNumber f) => ret f
  | _ => panic ("interface conversion: interface {} is "
                +:+ dynamic_type v +:+ ", not float64")
  end.

(** [zap.Error(err)] *)
Definition zap_Error (err : error) : string * string := ("error", Error err).

(** ** [main.go] *)

Definition missing_configuration : error :=
  errorString "missing Azure DevOps configuration: organization, project, or PAT".

Definition task_url (organization project : string) : string :=
  "https://dev.azure.com/" +:+ organization +:+ "/" +:+ project
    +:+ "/_apis/wit/workitems/$Task?api-version=7.0".

Definition story_url (organization project : string) : string :=
  "https://dev.azure.com/" +:+ organization +:+ "/" +:+ project
    +:+ "/_apis/wit/workitems/$User%20Story?api-version=7.0".

(** The URL of the parent in the relation of a task. *)
Definition parent_url (organization : string) (parentID : Z) : string :=
  "https://dev.azure.com/" +:+ organization +:+ "/_apis/wit/workItems/"
    +:+ itoa parentID.

(** The payload of [createTask], lines 195-242. *)
Definition task_payload (organization : string) (parentID : Z)
    (task : Task.t) (userStory : UserStory.t) : list Operation :=
  [ mkOp "add" "/fields/System.Title" (VString (Task.Name task));
    mkOp "add" "/fields/System.Description" (VString (Task.Description task));
    mkOp "add" "/fields/System.AssignedTo" (VString (Task.Owner task));
    mkOp "add" "/fields/Microsoft.VSTS.Common.Priority" (VInt (Task.Priority task));
    mkOp "add" "/fields/System.State" (VString (Task.State task));
    mkOp "add" "/relations/-"
         (VRelation "System.LinkTypes.Hierarchy-Reverse"
                    (parent_url organization parentID)
                    "Linking task to user story");
    mkOp "add" "/fields/System.AreaPath" (VString (UserStory.Area userStory)) ].

(** The payload of [createUserStory], lines 84-125. *)
Definition story_payload (userStory : UserStory.t) : list Operation :=
  [ mkOp "add" "/fields/System.Title" (VString (UserStory.Name userStory));
    mkOp "add" "/fields/System.Description" (VString (UserStory.Description userStory));
    mkOp "add" "/fields/System.AssignedTo" (VString (UserStory.Owner userStory));
    mkOp "add" "/fields/Microsoft.VSTS.Common.Priority" (VInt (UserStory.Priority userStory));
    mkOp "add" "/fields/System.State" (VString (UserStory.State userStory));
    mkOp "add" "/fields/System.Tags" (VString "system_automated");
    mkOp "add" "/fields/System.AreaPath" (VString (UserStory.Area userStory)) ].

(** The request either function hands to the client: a POST with the
    patch content type and basic auth with an empty user name. *)
Definition post (url pat : string) (payload : list Operation) : Request :=
  {| Method := "POST";
     URL := url;
     ContentType := "application/json-patch+json";
     BasicAuth := (EmptyString, pat);
     Body := payload |}.

(** [resp.StatusCode != http.StatusOK && resp.StatusCode != http.StatusCreated] *)
Definition not_created (resp : Response) : bool :=
  negb (StatusCode resp =? StatusOK) && negb (StatusCode resp =? StatusCreated).

(** [createTask], lines 181-275. *)
Definition createTask (env : Env) (cfg : gmap string string) (parentID : Z)
    (task : Task.t) (userStory : UserStory.t) : Go (option error) :=
  let organization := GetString cfg "devops.organization" in
  let project := GetString cfg "devops.project" in
  let pat := GetString cfg "devops.pat" in
  if String.eqb organization EmptyString || String.eqb project EmptyString
     || String.eqb pat EmptyString
  then ret (Some missing_configuration)
  else
    let url := task_url organization project in
    let payload := task_payload organization parentID task userStory in
    match http_NewRequestWithContext env "POST" url with
    | Some err => ret (Some (Errorf_w "failed to create request: " err))
    | None =>
        r <- Do env (post url pat payload) ;;
        match r with
        | inl err => ret (Some (Errorf_w "failed to send request: " err))
        | inr resp =>
            if not_created resp
            then ret (Some (errorString
                              ("failed to create task, status: " +:+ Status resp)))
            else
              log InfoLevel "Task created successfully"
                  [("name", Task.Name task)] ;;;
              ret None
        end
    end.

(** The loop of [createUserStory] over the tasks of the story, lines
    170-175: the error of a task is logged and the loop goes on. *)
Definition create_tasks (env : Env) (cfg : gmap string string)
    (userStoryID : Z) (userStory : UserStory.t) : Go unit :=
  for_range (UserStory.Tasks userStory) (fun task =>
    e <- createTask env cfg userStoryID task userStory ;;
    match e with
    | Some err =>
        log ErrorLevel "Failed to create task"
            [("task_name", Task.Name task); zap_Error err]
    | None => ret tt
    end).

(** [createUserStory], lines 71-178. *)
Definition createUserStory (env : Env) (cfg : gmap string string)
    (userStory : UserStory.t) : Go (option error) :=
  let organization := GetString cfg "devops.organization" in
  let project := GetString cfg "devops.project" in
  let pat := GetString cfg "devops.pat" in
  if String.eqb organization EmptyString || String.eqb project EmptyString
     || String.eqb pat EmptyString
  then ret (Some missing_configuration)
  else
    let url := story_url organization project in
    log DebugLevel "Azure DevOps API URL" [("url", url)] ;;;
    let payload := story_payload userStory in
    match http_NewRequestWithContext env "POST" url with
    | Some err => ret (Some (Errorf_w "failed to create request: " err))
    | None =>
        r <- Do env (post url pat payload) ;;
        match r with
        | inl err => ret (Some (Errorf_w "failed to send request: " err))
        | inr resp =>
            if not_created resp
            then
              match json_Decode env (RespBody resp) with
              | inl err => ret (Some (Errorf_w "failed to parse response: " err))
              | inr errResponseBody =>
                  msg <- assert_string (errResponseBody !! "message") ;;
                  ret (Some (errorString
                               ("failed to create user story, status: "
                                +:+ Status resp +:+ " with message: " +:+ msg)))
              end
            else
              log InfoLevel "User story created successfully"
                  [("name", UserStory.Name userStory)] ;;;
              match json_Decode env (RespBody resp) with
              | inl err => ret (Some (Errorf_w "failed to parse response: " err))
              | inr responseBody =>
                  f <- assert_float64 (responseBody !! "id") ;;
                  let userStoryID := float64_to_int f in
                  create_tasks env cfg userStoryID userStory ;;;
                  ret None
              end
        end
    end.

(** The loop of [main] over the decoded stories, lines 60-65: the error
    of a story is logged and the loop goes on. *)
Definition create_stories (env : Env) (cfg : gmap string string)
    (userStories : list UserStory.t) : Go unit :=
  for_range userStories (fun userStory =>
    e <- createUserStory env cfg userStory ;;
    match e with
    | Some err =>
        log ErrorLevel "Failed to create user story"
            [("name", UserStory.Name userStory); zap_Error err]
    | None => ret tt
    end).

(** [main] from line 58 on: the loop and the closing log line.  Reading
    the configuration and the items file happens before and supplies
    [cfg] and [userStories]. *)
Definition main (env : Env) (cfg : gmap string string)
    (userStories : list UserStory.t) : Go unit :=
  create_stories env cfg userStories ;;;
  log InfoLevel
      ("Finish Job. Created: " +:+ itoa (Z.of_nat (length userStories))
       +:+ " US and " +:+ itoa 0 +:+ " Tasks") [].

(** The requests the two functions send, for the statements below. *)
Definition story_request (cfg : gmap string string) (userStory : UserStory.t) : Request :=
  post (story_url (GetString cfg "devops.organization") (GetString cfg "devops.project"))
       (GetString cfg "devops.pat") (story_payload userStory).

Definition task_request (cfg : gmap string string) (parentID : Z)
    (task : Task.t) (userStory : UserStory.t) : Request :=
  post (task_url (GetString cfg "devops.organization") (GetString cfg "devops.project"))
       (GetString cfg "devops.pat")
       (task_payload (GetString cfg "devops.organization") parentID task userStory).

(** The test both functions run on the configuration. *)
Definition missing (cfg : gmap string string) : bool :=
  String.eqb (GetString cfg "devops.organization") EmptyString
  || String.eqb (GetString cfg "devops.project") EmptyString
  || String.eqb (GetString cfg "devops.pat") EmptyString.

(** The requests of the tasks [ts] of a story whose identifier is
    [parentID]: the request constructor sees the same URL for each of
    them, so they go out all or none. *)
Definition task_calls (env : Env) (cfg : gmap string string) (parentID : Z)
    (userStory : UserStory.t) (ts : list Task.t) : list Request :=
  match http_NewRequestWithContext env "POST"
          (task_url (GetString cfg "devops.organization")
                    (GetString cfg "devops.project")) with
  | Some _ => []
  | None => map (fun t => task_request cfg parentID t userStory) ts
  end.

(** The identifier the service assigns to a story, when it does: the
    request of the story goes out after the requests [hist], the answer
    carries a success status and decodes to an object with a numeric
    [id]. *)
Definition assigned_id (env : Env) (cfg : gmap string string)
    (userStory : UserStory.t) (hist : list Request) : option Z :=
  if missing cfg then None
  else
    match http_NewRequestWithContext env "POST"
            (story_url (GetString cfg "devops.organization")
                       (GetString cfg "devops.project")) with
    | Some _ => None
    | None =>
        match client_Do env hist (story_request cfg userStory) with
        | inl _ => None
        | inr resp =>
            if not_created resp then None
            else
              match json_Decode env (RespBody resp) with
              | inl _ => None
              | inr responseBody =>
                  match responseBody !! "id" with
                  | Some (JNumber f) => Some (float64_to_int f)
                  | _ => None
                  end
              end
        end
    end.

(** ** Reading a payload and a trace *)

(** The values a payload carries for a path. *)
Definition values_at (p : string) (payload : list Operation) : list Value :=
  map value (filter (fun o => path o = p) payload).

(** The URLs of the relations a payload adds. *)
Definition relation_urls (payload : list Operation) : list string :=
  omap (fun o => match value o with
                 | VRelation _ url _ => Some url
                 | _ => None
                 end) payload.

(** The requests a computation adds to the ones sent before it. *)
Definition issued {A} (m : Go A) (s : Machine) : list Request :=
  drop (length (sent s)) (sent (snd (m s))).

Definition entries {A} (m : Go A) (s : Machine) : list LogEntry :=
  drop (length (logged s)) (logged (snd (m s))).

(** The record a log entry is about: the value of its first field. *)
Definition subject (e : LogEntry) : option string :=
  snd <$> head (fields e).

(** [strings.Contains(s, sub)] *)
Fixpoint contains (s sub : string) : bool :=
  String.prefix sub s ||
  match s with
  | EmptyString => false
  | String _ s' => contains s' sub
  end.

(** An error and the errors it wraps, outermost first. *)
Fixpoint chain (e : error) : list error :=
  e :: match e with
       | errorString _ => []
       | wrapError _ err => chain err
       end.

(** A text surfaces in an error when the message of the error, or of an
    error it wraps, contains it. *)
Definition surfaces (text : string) (e : error) : bool :=
  existsb (fun e' => contains (Error e') text) (chain e).

(** Reading the record back from a payload: the title, description,
    owner, priority and state it carries, when it carries exactly one
    of each and of the right kind. *)
Definition string_at (p : string) (payload : list Operation) : option string :=
  match values_at p payload with
  | [VString v] => Some v
  | _ => None
  end.

Definition int_at (p : string) (payload : list Operation) : option Z :=
  match values_at p payload with
  | [VInt n] => Some n
  | _ => None
  end.

Definition read_back (payload : list Operation)
  : option (string * string * string * Z * string) :=
  match string_at "/fields/System.Title" payload,
        string_at "/fields/System.Description" payload,
        string_at "/fields/System.AssignedTo" payload,
        int_at "/fields/Microsoft.VSTS.Common.Priority" payload,
        string_at "/fields/System.State" payload with
  | Some name, Some description, Some owner, Some priority, Some state =>
      Some (name, description, owner, priority, state)
  | _, _, _, _, _ => None
  end.

(** Two tasks that differ at most in [Type] and [Estimate]; two stories
    that differ at most in [Type] and in the [Type] and [Estimate] of
    their tasks. *)
Definition task_agrees (t1 t2 : Task.t) : Prop :=
  Task.Name t1 = Task.Name t2
  /\ Task.Description t1 = Task.Description t2
  /\ Task.Owner t1 = Task.Owner t2
  /\ Task.State t1 = Task.State t2
  /\ Task.Priority t1 = Task.Priority t2.

Definition story_agrees (u1 u2 : UserStory.t) : Prop :=
  UserStory.Name u1 = UserStory.Name u2
  /\ UserStory.Description u1 = UserStory.Description u2
  /\ UserStory.Owner u1 = UserStory.Owner u2
  /\ UserStory.State u1 = UserStory.State u2
  /\ UserStory.Priority u1 = UserStory.Priority u2
  /\ UserStory.Area u1 = UserStory.Area u2
  /\ UserStory.Path u1 = UserStory.Path u2
  /\ UserStory.Iteraction u1 = UserStory.Iteraction u2
  /\ UserStory.Team u1 = UserStory.Team u2
  /\ Forall2 task_agrees (UserStory.Tasks u1) (UserStory.Tasks u2).

(** The ways the creation of a story fails. *)
Inductive parent_failure (env : Env) (cfg : gmap string string)
    (us : UserStory.t) (s : Machine) : Prop :=
| configuration_error :
    missing cfg = true -> parent_failure env cfg us s
| request_build_failure err :
    http_NewRequestWithContext env "POST"
      (story_url (GetString cfg "devops.organization")
                 (GetString cfg "devops.project")) = Some err ->
    parent_failure env cfg us s
| transport_error err :
    client_Do env (sent s) (story_request cfg us) = inl err ->
    parent_failure env cfg us s
| non_success_status resp :
    client_Do env (sent s) (story_request cfg us) = inr resp ->
    not_created resp = true ->
    parent_failure env cfg us s
| undecodable_response resp err :
    client_Do env (sent s) (story_request cfg us) = inr resp ->
    json_Decode env (RespBody resp) = inl err ->
    parent_failure env cfg us s.

(** The machine after one turn of the loop of [main], given what
    [createUserStory] returned. *)
Definition after_story (us : UserStory.t) (e : option error) (s : Machine) : Machine :=
  match e with
  | Some err =>
      {| sent := sent s;
         logged := logged s ++
           [mkLog ErrorLevel "Failed to create user story"
                  [("name", UserStory.Name us); zap_Error err]] |}
  | None => s
  end.

(** ** A small world to run the program in

    The scenario of one story [US1] of area [TeamA] with the tasks [T1]
    and [T2].  [decode] stands in for [encoding/json] on the few bodies
    the examples use and returns on each what the Go decoder returns. *)

Module Sample.

Definition dq : string := String "034"%char EmptyString.

Definition body_id_100 : string := "{" +:+ dq +:+ "id" +:+ dq +:+ ":100}".
Definition body_id_201 : string := "{" +:+ dq +:+ "id" +:+ dq +:+ ":201}".
Definition body_no_id : string := "{}".
Definition body_message : string :=
  "{" +:+ dq +:+ "message" +:+ dq +:+ ":" +:+ dq +:+ "boom" +:+ dq +:+ "}".
Definition body_html : string := "<html>".

(** 100 and 201 as float64: 53-bit mantissa and exponent. *)
Definition f100 : spec_float := S754_finite false 7036874417766400 (-46).
Definition f201 : spec_float := S754_finite false 7072058789855232 (-45).

Definition decode (body : string) : error + gmap string JValue :=
  if String.eqb body body_id_100 then inr {[ "id" := JNumber f100 ]}
  else if String.eqb body body_id_201 then inr {[ "id" := JNumber f201 ]}
  else if String.eqb body body_no_id then inr ∅
  else if String.eqb body body_message then inr {[ "message" := JString "boom" ]}
  else inl (errorString "invalid character '<' looking for beginning of value").

Definition cfg : gmap string string :=
  {[ "devops.organization" := "org";
     "devops.project" := "proj";
     "devops.pat" := "secret" ]}.

Definition no_pat : gmap string string :=
  {[ "devops.organization" := "org"; "devops.project" := "proj" ]}.

Definition T1 : Task.t := Task.mk "T1" "Task" "first" "ann" "New" 1 3.
Definition T2 : Task.t := Task.mk "T2" "Task" "second" "bob" "New" 2 5.
Definition US1 : UserStory.t :=
  UserStory.mk "US1" "User Story" "a story" "ann" "New" 1 "TeamA" "p"
               [T1; T2] None "team".
Definition US2 : UserStory.t :=
  UserStory.mk "US2" "User Story" "another" "bob" "New" 2 "TeamB" "p"
               [T2] None "team".

(** A service that answers the n-th request with the n-th reply of a
    script and with a transport error once the script is over. *)
Definition scripted (script : list (error + Response)) : Env :=
  {| client_Do := fun hist _ =>
       nth (length hist) script (inl (errorString "connection refused"));
     json_Decode := decode;
     http_NewRequestWithContext := fun _ _ => None |}.

Definition created (body : string) : error + Response :=
  inr (mkResponse "201 Created" 201 body).
Definition refused (status : string) (code : Z) (body : string) : error + Response :=
  inr (mkResponse status code body).

(** US1 gets id 100, T1 is created, T2 is refused. *)
Definition scenario : Env :=
  scripted [created body_id_100; created body_id_201;
            refused "400 Bad Request" 400 body_message].

(** US1 and its tasks with other types and estimates. *)
Definition T1' : Task.t := Task.mk "T1" "Bug" "first" "ann" "New" 1 8.
Definition T2' : Task.t := Task.mk "T2" "Issue" "second" "bob" "New" 2 13.
Definition US1' : UserStory.t :=
  UserStory.mk "US1" "Epic" "a story" "ann" "New" 1 "TeamA" "p"
               [T1'; T2'] None "team".

(** The first request is refused with 400 and a [message]. *)
Definition bad_request : Env :=
  scripted [refused "400 Bad Request" 400 body_message].

(** Two stories in a row: US2 gets id 201 and its task is created,
    then US1 gets id 100 and its tasks are created. *)
Definition two_parents : Env :=
  scripted [created body_id_201; created body_id_100;
            created body_id_100; created body_id_201; created body_id_201].

(** The service refuses US1 with 401. *)
Definition unauthorized : Env :=
  scripted [refused "401 Unauthorized" 401 body_message].

(** The same with a body that is not JSON. *)
Definition unauthorized_html : Env :=
  scripted [refused "401 Unauthorized" 401 body_html].

(** US1 gets id 100, T1 is refused, T2 is created. *)
Definition first_task_refused : Env :=
  scripted [created body_id_100;
            refused "400 Bad Request" 400 body_message;
            created body_id_201].

(** US1 is answered 200 with an object that has no [id]. *)
Definition no_id : Env :=
  scripted [inr (mkResponse "200 OK" 200 body_no_id);
            created body_id_100; created body_id_201].

End Sample.

(** ** The rest of [main.go] *)

(** Modelled from the spec: the struct [models.AdoSettings], whose
    declaration is not among the sources.  Its fields are the three
    strings [GetAdoSettings] assigns: organization, project and access
    credential. *)
Record AdoSettings := mkAdoSettings {
  Organization : string;
  Project : string;
  Pat : string
}.

(** [GetAdoSettings], lines 288-306.  [logger.Sugar().Panicf] writes its
    message at the panic level and panics with it; the outcome
    [Panics msg] stands for both.  The function sends nothing.  [len] of
    a Go string counts its bytes, as [String.length] does. *)
Definition GetAdoSettings (cfg : gmap string string) : Outcome AdoSettings :=
  let organization := GetString cfg "devops.organization" in
  let project := GetString cfg "devops.project" in
  let pat := GetString cfg "devops.pat" in
  if String.eqb organization EmptyString || String.eqb project EmptyString
     || String.eqb pat EmptyString
  then Panics ("missing Azure DevOps configuration: organization: "
               +:+ organization +:+ ", project: " +:+ project
               +:+ ", or PAT: " +:+ itoa (Z.of_nat (String.length pat)))
  else Returns {| Organization := organization;
                  Project := project;
                  Pat := pat |}.

(** [FindNextIteraction] and [FindIteraction], lines 277-286: both
    return the nil pointer. *)
Definition FindNextIteraction (team : string) : option string := None.
Definition FindIteraction (iteraction : string) : option string := None.

(** ** Further readings of a run *)

(** The requests [createUserStory] sends after the requests [hist]. *)
Definition story_calls (env : Env) (cfg : gmap string string)
    (userStory : UserStory.t) (hist : list Request) : list Request :=
  if missing cfg then []
  else
    match http_NewRequestWithContext env "POST"
            (story_url (GetString cfg "devops.organization")
                       (GetString cfg "devops.project")) with
    | Some _ => []
    | None =>
        story_request cfg userStory
          :: match assigned_id env cfg userStory hist with
             | Some id => task_calls env cfg id userStory
                                     (UserStory.Tasks userStory)
             | None => []
             end
    end.

(** A service whose answers to the requests of stories never trip the
    two type assertions of [createUserStory]: a refusal that decodes
    carries a string [message], a success that decodes carries a numeric
    [id]. *)
Definition well_shaped (env : Env) (cfg : gmap string string) : Prop :=
  forall hist us resp m,
    client_Do env hist (story_request cfg us) = inr resp ->
    json_Decode env (RespBody resp) = inr m ->
    if not_created resp
    then exists msg, m !! "message" = Some (JString msg)
    else exists f, m !! "id" = Some (JNumber f).

(** The number of records of a batch: its stories and their tasks. *)
Definition records (stories : list UserStory.t) : nat :=
  (length stories
   + sum_list (map (fun us => length (UserStory.Tasks us)) stories))%nat.

(** One request per record of a batch, in the order of the input: for
    each story its own request, then the requests of its tasks under
    the identifier [ids] gives for that story. *)
Definition plan (cfg : gmap string string) (stories : list UserStory.t)
    (ids : list Z) : list Request :=
  concat (zip_with (fun us id =>
                      story_request cfg us
                        :: map (fun t => task_request cfg id t us)
                               (UserStory.Tasks us))
                   stories ids).

(** Two stories that agree on every field a request or a log entry can
    show: all but [Type], [Path], [Iteraction] and [Team], the tasks up
    to their [Type] and [Estimate]. *)
Definition story_shows_same (u1 u2 : UserStory.t) : Prop :=
  UserStory.Name u1 = UserStory.Name u2
  /\ UserStory.Description u1 = UserStory.Description u2
  /\ UserStory.Owner u1 = UserStory.Owner u2
  /\ UserStory.State u1 = UserStory.State u2
  /\ UserStory.Priority u1 = UserStory.Priority u2
  /\ UserStory.Area u1 = UserStory.Area u2
  /\ Forall2 task_agrees (UserStory.Tasks u1) (UserStory.Tasks u2).

(** The entry [main] logs for a story that returned [err], and its
    closing entry. *)
Definition story_failure (us : UserStory.t) (err : error) : LogEntry :=
  mkLog ErrorLevel "Failed to create user story"
        [("name", UserStory.Name us); zap_Error err].

Definition finish_entry (userStories : list UserStory.t) : LogEntry :=
  mkLog InfoLevel
        ("Finish Job. Created: " +:+ itoa (Z.of_nat (length userStories))
         +:+ " US and " +:+ itoa 0 +:+ " Tasks") [].

(** More worlds to run the program in. *)
Module Cases.

(** The story is refused with 404 and an object without [message]. *)
Definition not_found : Env :=
  Sample.scripted [Sample.refused "404 Not Found" 404 Sample.body_no_id].

(** Nothing answers: every request ends in a transport error. *)
Definition unreachable : Env := Sample.scripted [].

(** The request constructor refuses every URL. *)
Definition bad_url : Env :=
  {| client_Do := client_Do Sample.scenario;
     json_Decode := Sample.decode;
     http_NewRequestWithContext := fun _ _ =>
       Some (errorString "parse: invalid URL escape") |}.

(** No organization; two credentials of the same length. *)
Definition no_org_a : gmap string string :=
  {[ "devops.project" := "proj"; "devops.pat" := "secret" ]}.
Definition no_org_b : gmap string string :=
  {[ "devops.project" := "proj"; "devops.pat" := "s3cr3t" ]}.

(** US1 with another type, path, iteration and team. *)
Definition US1_elsewhere : UserStory.t :=
  UserStory.mk "US1" "Epic" "a story" "ann" "New" 1 "TeamA" "q"
               [Sample.T1'; Sample.T2'] (Some "Sprint 9") "other".

End Cases.

(** * Properties *)

Example scenario_requests :
  sent (snd (main Sample.scenario Sample.cfg [Sample.US1] start)) =
  [ post (story_url "org" "proj") "secret" (story_payload Sample.US1);
    post (task_url "org" "proj") "secret" (task_payload "org" 100 Sample.T1 Sample.US1);
    post (task_url "org" "proj") "secret" (task_payload "org" 100 Sample.T2 Sample.US1) ].
Proof. vm_compute. reflexivity. Qed.

(** ** The monad *)

Lemma bind_returns {A B} (m : Go A) (k : A -> Go B) s a s' :
  m s = (Returns a, s') -> bind m k s = k a s'.
Proof. intros H. unfold bind. rewrite H. reflexivity. Qed.

Lemma for_range_app {A} (xs ys : list A) (body : A -> Go unit) s :
  for_range (xs ++ ys) body s
  = bind (for_range xs body) (fun _ => for_range ys body) s.
Proof.
  revert s. induction xs as [|x xs IH]; intros s.
  - reflexivity.
  - cbn [app for_range]. unfold bind in *.
    destruct (body x s) as [[[]|v] s1]; [apply IH | reflexivity].
Qed.

(** ** Strings *)

Lemma Z_to_int_proper (n : Z) : Z.to_int n <> Decimal.Pos Decimal.Nil
                                /\ Z.to_int n <> Decimal.Neg Decimal.Nil.
Proof.
  destruct n as [|p|p]; cbn; split; try discriminate;
    intros [= H]; revert H; apply DecimalPos.Unsigned.to_uint_nonnil.
Qed.

Lemma itoa_inj (n m : Z) : itoa n = itoa m -> n = m.
Proof.
  unfold itoa. intros H. apply DecimalZ.to_int_inj.
  destruct (Z_to_int_proper n) as [Hn1 Hn2], (Z_to_int_proper m) as [Hm1 Hm2].
  pose proof (NilZero.isi _ Hn1 Hn2) as En.
  pose proof (NilZero.isi _ Hm1 Hm2) as Em.
  rewrite H in En. congruence.
Qed.

Lemma parent_url_inj org (n m : Z) : parent_url org n = parent_url org m -> n = m.
Proof.
  unfold parent_url. intros H.
  repeat (apply String.app_inj in H). apply itoa_inj, H.
Qed.

Lemma story_url_not_task_url org proj : story_url org proj <> task_url org proj.
Proof.
  unfold story_url, task_url. intros H.
  repeat (apply String.app_inj in H). discriminate H.
Qed.

(** ** One task *)

Lemma task_calls_cons env cfg pid us t ts :
  task_calls env cfg pid us (t :: ts)
  = task_calls env cfg pid us [t] ++ task_calls env cfg pid us ts.
Proof. unfold task_calls. destruct http_NewRequestWithContext; reflexivity. Qed.

Lemma machine_eta s : {| sent := sent s ++ []; logged := logged s ++ [] |} = s.
Proof. destruct s. cbn. rewrite !app_nil_r. reflexivity. Qed.

Lemma createTask_run env cfg pid t us s :
  missing cfg = false ->
  exists e,
    createTask env cfg pid t us s
    = (Returns e,
       {| sent := sent s ++ task_calls env cfg pid us [t];
          logged := logged s ++
            match e with
            | None => [mkLog InfoLevel "Task created successfully"
                             [("name", Task.Name t)]]
            | Some _ => []
            end |}).
Proof.
  intros Hcfg. unfold createTask, task_calls.
  change (String.eqb _ _ || _ || _) with (missing cfg). rewrite Hcfg.
  destruct http_NewRequestWithContext as [err|].
  - eexists (Some _). unfold ret. rewrite machine_eta. reflexivity.
  - unfold bind, Do, ret, log. cbn [map sent logged].
    fold (task_request cfg pid t us).
    destruct (client_Do env (sent s) (task_request cfg pid t us)) as [err|resp].
    + eexists (Some _). rewrite app_nil_r. reflexivity.
    + destruct (not_created resp).
      * eexists (Some _). rewrite app_nil_r. reflexivity.
      * exists None. reflexivity.
Qed.

Lemma create_tasks_run env cfg pid us ts s :
  missing cfg = false ->
  exists es,
    for_range ts (fun task =>
      e <- createTask env cfg pid task us ;;
      match e with
      | Some err =>
          log ErrorLevel "Failed to create task"
              [("task_name", Task.Name task); zap_Error err]
      | None => ret tt
      end) s
    = (Returns tt,
       {| sent := sent s ++ task_calls env cfg pid us ts;
          logged := logged s ++ es |})
    /\ map subject es = map (fun t => Some (Task.Name t)) ts.
Proof.
  intros Hcfg. revert s. induction ts as [|t ts IH]; intros s.
  - exists []. split; [|reflexivity].
    cbn [for_range]. unfold ret, task_calls.
    destruct http_NewRequestWithContext; cbn [map]; rewrite machine_eta; reflexivity.
  - destruct (createTask_run env cfg pid t us s Hcfg) as [e He].
    cbn [for_range].
    rewrite (bind_returns _ _ s tt
               {| sent := sent s ++ task_calls env cfg pid us [t];
                  logged := logged s ++
                    [match e with
                     | None => mkLog InfoLevel "Task created successfully"
                                     [("name", Task.Name t)]
                     | Some err => mkLog ErrorLevel "Failed to create task"
                                     [("task_name", Task.Name t); zap_Error err]
                     end] |}).
    + match goal with |- context [for_range ts ?b ?s1] =>
        destruct (IH s1) as (es & Hrun & Hes) end.
      eexists (_ :: es). split.
      * rewrite Hrun. cbn [sent logged].
        rewrite (task_calls_cons env cfg pid us t ts), <- !app_assoc.
        reflexivity.
      * cbn [map]. rewrite Hes. destruct e; reflexivity.
    + rewrite (bind_returns _ _ _ _ _ He). destruct e as [err|].
      * unfold log. cbn [sent logged]. rewrite app_nil_r. reflexivity.
      * unfold ret. reflexivity.
Qed.

(** ** One story *)

Lemma assigned_id_Some env cfg us hist id :
  assigned_id env cfg us hist = Some id <->
  missing cfg = false
  /\ http_NewRequestWithContext env "POST"
       (story_url (GetString cfg "devops.organization")
                  (GetString cfg "devops.project")) = None
  /\ exists resp m f,
       client_Do env hist (story_request cfg us) = inr resp
       /\ not_created resp = false
       /\ json_Decode env (RespBody resp) = inr m
       /\ m !! "id" = Some (JNumber f)
       /\ id = float64_to_int f.
Proof.
  unfold assigned_id. split.
  - destruct (missing cfg); [discriminate|].
    destruct http_NewRequestWithContext; [discriminate|].
    destruct client_Do as [|resp]; [discriminate|].
    destruct (not_created resp) eqn:Hst; [discriminate|].
    destruct json_Decode as [|m] eqn:Hdec; [discriminate|].
    destruct (m !! "id") as [[| |f| | |]|] eqn:Hid; try discriminate.
    intros [= <-]. do 2 (split; [reflexivity|]).
    exists resp, m, f. repeat split; assumption.
  - intros (-> & -> & resp & m & f & -> & -> & -> & -> & ->). reflexivity.
Qed.

Ltac not_nil :=
  unfold ret, panic; cbn [fst snd sent logged]; split; [discriminate|].

(** Every run of [createUserStory] is of one of two kinds.  When the
    service assigns an identifier, the call returns nil after sending
    the request of the story and then the requests of its tasks under
    that identifier, and it logs one entry per task.  Otherwise it does
    not return nil, and it has sent nothing or the request of the story
    alone. *)
Lemma createUserStory_run env cfg us s :
  match assigned_id env cfg us (sent s) with
  | Some id =>
      exists es,
        createUserStory env cfg us s
        = (Returns None,
           {| sent := sent s ++ story_request cfg us
                        :: task_calls env cfg id us (UserStory.Tasks us);
              logged := logged s ++
                [ mkLog DebugLevel "Azure DevOps API URL"
                        [("url", story_url (GetString cfg "devops.organization")
                                           (GetString cfg "devops.project"))];
                  mkLog InfoLevel "User story created successfully"
                        [("name", UserStory.Name us)] ] ++ es |})
        /\ map subject es = map (fun t => Some (Task.Name t)) (UserStory.Tasks us)
  | None =>
      fst (createUserStory env cfg us s) <> Returns None
      /\ (sent (snd (createUserStory env cfg us s)) = sent s
          \/ sent (snd (createUserStory env cfg us s))
             = sent s ++ [story_request cfg us])
  end.
Proof.
  destruct (createUserStory env cfg us s) as [r s'] eqn:E. cbn [fst snd].
  revert E. unfold createUserStory, assigned_id.
  change (String.eqb _ _ || _ || _) with (missing cfg).
  destruct (missing cfg) eqn:Hcfg.
  { intros [= <- <-]. not_nil. left; reflexivity. }
  unfold bind at 1. unfold log at 1. cbn [sent logged].
  destruct http_NewRequestWithContext as [err|].
  { intros [= <- <-]. not_nil. left; reflexivity. }
  unfold bind at 1. unfold Do at 1. cbn [sent logged].
  fold (story_request cfg us).
  destruct (client_Do env (sent s) (story_request cfg us)) as [err|resp].
  { intros [= <- <-]. not_nil. right; reflexivity. }
  destruct (not_created resp).
  { destruct (json_Decode env (RespBody resp)) as [err|m].
    - intros [= <- <-]. not_nil. right; reflexivity.
    - unfold bind, assert_string, panic, ret.
      destruct (m !! "message") as [[]|]; intros [= <- <-];
        not_nil; right; reflexivity. }
  unfold bind at 1. unfold log at 1. cbn [sent logged].
  destruct (json_Decode env (RespBody resp)) as [err|m].
  { intros [= <- <-]. not_nil. right; reflexivity. }
  unfold bind at 1. unfold assert_float64, panic.
  destruct (m !! "id") as [[| |f| | |]|];
    try (intros [= <- <-]; not_nil; right; reflexivity).
  unfold ret at 1. unfold create_tasks.
  match goal with |- context [bind (for_range _ _) _ ?s1] =>
    destruct (create_tasks_run env cfg (float64_to_int f) us
                (UserStory.Tasks us) s1 Hcfg) as (es & Hrun & Hes)
  end.
  rewrite (bind_returns _ _ _ _ _ Hrun). unfold ret. cbn [sent logged].
  intros [= <- <-]. exists es. split; [|exact Hes].
  rewrite <- !app_assoc. reflexivity.
Qed.

Lemma issued_of_sent {A} (m : Go A) s l :
  sent (snd (m s)) = sent s ++ l -> issued m s = l.
Proof. intros H. unfold issued. rewrite H. apply drop_app_length. Qed.

Lemma entries_of_logged {A} (m : Go A) s l :
  logged (snd (m s)) = logged s ++ l -> entries m s = l.
Proof. intros H. unfold entries. rewrite H. apply drop_app_length. Qed.

Lemma parent_failure_no_id env cfg us s :
  parent_failure env cfg us s -> assigned_id env cfg us (sent s) = None.
Proof.
  intros H. destruct (assigned_id env cfg us (sent s)) as [id|] eqn:E; [|reflexivity].
  apply assigned_id_Some in E.
  destruct E as (Hcfg & Hreq & resp & m & f & Hdo & Hst & Hdec & _).
  destruct H; congruence.
Qed.

Lemma parent_failure_fails env cfg us s :
  parent_failure env cfg us s ->
  fst (createUserStory env cfg us s) <> Returns None.
Proof.
  intros H. pose proof (createUserStory_run env cfg us s) as R.
  rewrite (parent_failure_no_id _ _ _ _ H) in R. apply R.
Qed.

(** ** Properties of one call *)

(** C4.  With an empty organization, project or credential both
    [createUserStory] and [createTask] return the configuration error
    and leave the machine as it was: no request has been sent (and
    nothing logged). *)
Theorem missing_configuration_returns_at_once env cfg :
  GetString cfg "devops.organization" = EmptyString
  \/ GetString cfg "devops.project" = EmptyString
  \/ GetString cfg "devops.pat" = EmptyString ->
  (forall us s,
      createUserStory env cfg us s = (Returns (Some missing_configuration), s))
  /\ (forall pid t us s,
      createTask env cfg pid t us s = (Returns (Some missing_configuration), s)).
Proof.
  intros H.
  assert (Hm : missing cfg = true).
  { unfold missing. destruct H as [-> | [-> | ->]]; cbn [String.eqb];
      rewrite ?orb_true_r; reflexivity. }
  split; intros; [unfold createUserStory | unfold createTask];
    change (String.eqb _ _ || _ || _) with (missing cfg);
    rewrite Hm; reflexivity.
Qed.

Lemma missing_configuration_witness :
  (GetString Sample.no_pat "devops.organization" = EmptyString
   \/ GetString Sample.no_pat "devops.project" = EmptyString
   \/ GetString Sample.no_pat "devops.pat" = EmptyString)
  /\ createUserStory Sample.scenario Sample.no_pat Sample.US1 start
     = (Returns (Some missing_configuration), start)
  /\ createTask Sample.scenario Sample.no_pat 100 Sample.T1 Sample.US1 start
     = (Returns (Some missing_configuration), start).
Proof.
  assert (H : GetString Sample.no_pat "devops.organization" = EmptyString
              \/ GetString Sample.no_pat "devops.project" = EmptyString
              \/ GetString Sample.no_pat "devops.pat" = EmptyString)
    by (right; right; reflexivity).
  split; [exact H|].
  split; apply (missing_configuration_returns_at_once Sample.scenario Sample.no_pat H).
Defined.

(** C2.  When [createUserStory] does not return nil (it returns an
    error or panics), the requests it has sent are none or the request
    of the story alone; none of them goes to the URL of tasks.
    [parent_failure_fails] shows that a configuration error, a refused
    request construction, a transport error, a status other than 200
    and 201 and an undecodable response are such runs. *)
Theorem failed_story_sends_no_task env cfg us s :
  fst (createUserStory env cfg us s) <> Returns None ->
  (issued (createUserStory env cfg us) s = []
   \/ issued (createUserStory env cfg us) s = [story_request cfg us])
  /\ Forall (fun req => URL req <> task_url (GetString cfg "devops.organization")
                                           (GetString cfg "devops.project"))
            (issued (createUserStory env cfg us) s).
Proof.
  intros Hfail. pose proof (createUserStory_run env cfg us s) as R.
  destruct (assigned_id env cfg us (sent s)) as [id|].
  - destruct R as (es & Hrun & _). rewrite Hrun in Hfail. contradiction.
  - destruct R as [_ [Hs | Hs]].
    + rewrite <- (app_nil_r (sent s)) in Hs.
      apply issued_of_sent in Hs. rewrite Hs. split; [left; reflexivity | constructor].
    + apply issued_of_sent in Hs. rewrite Hs. split; [right; reflexivity|].
      repeat constructor. apply story_url_not_task_url.
Qed.

Lemma failed_story_witness :
  fst (createUserStory Sample.unauthorized Sample.cfg Sample.US1 start)
    <> Returns None
  /\ (issued (createUserStory Sample.unauthorized Sample.cfg Sample.US1) start = []
      \/ issued (createUserStory Sample.unauthorized Sample.cfg Sample.US1) start
         = [story_request Sample.cfg Sample.US1])
  /\ Forall (fun req => URL req <> task_url (GetString Sample.cfg "devops.organization")
                                            (GetString Sample.cfg "devops.project"))
            (issued (createUserStory Sample.unauthorized Sample.cfg Sample.US1) start).
Proof.
  assert (H : fst (createUserStory Sample.unauthorized Sample.cfg Sample.US1 start)
              <> Returns None) by (vm_compute; discriminate).
  split; [exact H|].
  apply (failed_story_sends_no_task Sample.unauthorized Sample.cfg Sample.US1 start H).
Defined.

(** C3.  When the service has assigned an identifier to the story,
    [createUserStory] returns nil whatever happens to the tasks, every
    task leaves its own log entry, in order, and (the constructor
    accepting the URL of tasks) the request of every task has gone out,
    in order, after the request of the story.  The service is arbitrary:
    it may refuse any of the tasks. *)
Theorem failed_task_does_not_stop_siblings env cfg us s resp m f :
  missing cfg = false ->
  http_NewRequestWithContext env "POST"
    (story_url (GetString cfg "devops.organization")
               (GetString cfg "devops.project")) = None ->
  client_Do env (sent s) (story_request cfg us) = inr resp ->
  not_created resp = false ->
  json_Decode env (RespBody resp) = inr m ->
  m !! "id" = Some (JNumber f) ->
  fst (createUserStory env cfg us s) = Returns None
  /\ map subject (drop 2 (entries (createUserStory env cfg us) s))
     = map (fun t => Some (Task.Name t)) (UserStory.Tasks us)
  /\ (http_NewRequestWithContext env "POST"
        (task_url (GetString cfg "devops.organization")
                  (GetString cfg "devops.project")) = None ->
      issued (createUserStory env cfg us) s
      = story_request cfg us
          :: map (fun t => task_request cfg (float64_to_int f) t us)
                 (UserStory.Tasks us)).
Proof.
  intros Hcfg Hreq Hdo Hst Hdec Hid.
  pose proof (createUserStory_run env cfg us s) as R.
  assert (E : assigned_id env cfg us (sent s) = Some (float64_to_int f)).
  { apply assigned_id_Some. do 2 (split; [assumption|]).
    exists resp, m, f. repeat split; assumption. }
  rewrite E in R. destruct R as (es & Hrun & Hes).
  split; [rewrite Hrun; reflexivity|]. split.
  - erewrite entries_of_logged; [|rewrite Hrun; reflexivity].
    exact Hes.
  - intros Htask. apply issued_of_sent. rewrite Hrun. cbn [snd sent].
    unfold task_calls. rewrite Htask. reflexivity.
Qed.

Lemma failed_task_witness :
  fst (createUserStory Sample.first_task_refused Sample.cfg Sample.US1 start)
    = Returns None
  /\ map subject
       (drop 2 (entries (createUserStory Sample.first_task_refused
                                         Sample.cfg Sample.US1) start))
     = map (fun t => Some (Task.Name t)) (UserStory.Tasks Sample.US1)
  /\ (http_NewRequestWithContext Sample.first_task_refused "POST"
        (task_url (GetString Sample.cfg "devops.organization")
                  (GetString Sample.cfg "devops.project")) = None ->
      issued (createUserStory Sample.first_task_refused Sample.cfg Sample.US1) start
      = story_request Sample.cfg Sample.US1
          :: map (fun t => task_request Sample.cfg (float64_to_int Sample.f100)
                                        t Sample.US1)
                 (UserStory.Tasks Sample.US1)).
Proof.
  apply (failed_task_does_not_stop_siblings
           Sample.first_task_refused Sample.cfg Sample.US1 start
           (mkResponse "201 Created" 201 Sample.body_id_100)
           {[ "id" := JNumber Sample.f100 ]} Sample.f100);
    vm_compute; reflexivity.
Defined.

(** In that world the first task is refused, the refusal is logged, and
    the second task is requested and created all the same. *)
Example first_task_refused_log :
  map (fun e => (level e, message e, subject e))
      (logged (snd (createUserStory Sample.first_task_refused
                                    Sample.cfg Sample.US1 start)))
  = [ (DebugLevel, "Azure DevOps API URL",
       Some "https://dev.azure.com/org/proj/_apis/wit/workitems/$User%20Story?api-version=7.0");
      (InfoLevel, "User story created successfully", Some "US1");
      (ErrorLevel, "Failed to create task", Some "T1");
      (InfoLevel, "Task created successfully", Some "T2") ].
Proof. vm_compute. reflexivity. Qed.

(** C5.  The payload of a story stamps the tag [system_automated]; the
    payload of a task has no operation on [System.Tags] at all, whatever
    the task, its story and the identifier of the parent. *)
Theorem task_payload_has_no_tag org pid t us :
  values_at "/fields/System.Tags" (story_payload us) = [VString "system_automated"]
  /\ values_at "/fields/System.Tags" (task_payload org pid t us) = [].
Proof. split; reflexivity. Qed.

(** C7.  A success status with an object that has no [id]: the type
    assertion panics inside [createUserStory]; the panic ends [main],
    which neither logs the failure of the story nor reaches the second
    story or the closing log line. *)
Theorem missing_id_panics :
  fst (createUserStory Sample.no_id Sample.cfg Sample.US1 start)
    = Panics "interface conversion: interface {} is nil, not float64"
  /\ fst (main Sample.no_id Sample.cfg [Sample.US1; Sample.US2] start)
     = Panics "interface conversion: interface {} is nil, not float64"
  /\ sent (snd (main Sample.no_id Sample.cfg [Sample.US1; Sample.US2] start))
     = [story_request Sample.cfg Sample.US1]
  /\ map message (logged (snd (main Sample.no_id Sample.cfg
                                    [Sample.US1; Sample.US2] start)))
     = ["Azure DevOps API URL"; "User story created successfully"].
Proof. vm_compute. repeat split; reflexivity. Qed.

(** The same on any successful answer whose [id] is not a number: a
    missing key, [null], a string, an object. *)
Lemma createUserStory_panics_without_numeric_id env cfg us s resp m :
  missing cfg = false ->
  http_NewRequestWithContext env "POST"
    (story_url (GetString cfg "devops.organization")
               (GetString cfg "devops.project")) = None ->
  client_Do env (sent s) (story_request cfg us) = inr resp ->
  not_created resp = false ->
  json_Decode env (RespBody resp) = inr m ->
  (forall f, m !! "id" <> Some (JNumber f)) ->
  fst (createUserStory env cfg us s)
  = Panics ("interface conversion: interface {} is "
            +:+ dynamic_type (m !! "id") +:+ ", not float64").
Proof.
  intros Hcfg Hreq Hdo Hst Hdec Hid. unfold createUserStory.
  change (String.eqb _ _ || _ || _) with (missing cfg). rewrite Hcfg, Hreq.
  unfold bind, log, Do. cbn [sent logged]. fold (story_request cfg us).
  rewrite Hdo, Hst, Hdec. unfold assert_float64, panic.
  destruct (m !! "id") as [[| |f| | |]|]; try reflexivity.
  destruct (Hid f eq_refl).
Qed.

(** What the two functions return on a status other than 200 and 201:
    [createUserStory] returns an error whose text carries the status
    line and the [message] of the body when the body decodes to an
    object with a string [message]; when the body does not decode it
    returns the decoding error wrapped under the text
    [failed to parse response: ...], which says nothing of the status;
    [createTask] returns an error with the status line alone and never
    reads the body. *)
Theorem non_success_status_errors env cfg s resp :
  missing cfg = false ->
  not_created resp = true ->
  (forall us,
      http_NewRequestWithContext env "POST"
        (story_url (GetString cfg "devops.organization")
                   (GetString cfg "devops.project")) = None ->
      client_Do env (sent s) (story_request cfg us) = inr resp ->
      match json_Decode env (RespBody resp) with
      | inr body =>
          forall msg, body !! "message" = Some (JString msg) ->
            fst (createUserStory env cfg us s)
            = Returns (Some (errorString
                ("failed to create user story, status: " +:+ Status resp
                 +:+ " with message: " +:+ msg)))
      | inl derr =>
          fst (createUserStory env cfg us s)
          = Returns (Some (wrapError ("failed to parse response: " +:+ Error derr)
                                     derr))
      end)
  /\ (forall pid t us,
        http_NewRequestWithContext env "POST"
          (task_url (GetString cfg "devops.organization")
                    (GetString cfg "devops.project")) = None ->
        client_Do env (sent s) (task_request cfg pid t us) = inr resp ->
        fst (createTask env cfg pid t us s)
        = Returns (Some (errorString
            ("failed to create task, status: " +:+ Status resp)))).
Proof.
  intros Hcfg Hst. split.
  - intros us Hreq Hdo. unfold createUserStory.
    change (String.eqb _ _ || _ || _) with (missing cfg). rewrite Hcfg, Hreq.
    unfold bind, log, Do. cbn [sent logged]. fold (story_request cfg us).
    rewrite Hdo, Hst.
    destruct (json_Decode env (RespBody resp)) as [derr|body].
    + reflexivity.
    + intros msg Hmsg. rewrite Hmsg. reflexivity.
  - intros pid t us Hreq Hdo. unfold createTask.
    change (String.eqb _ _ || _ || _) with (missing cfg). rewrite Hcfg, Hreq.
    unfold bind, Do. cbn [sent logged]. fold (task_request cfg pid t us).
    rewrite Hdo, Hst. reflexivity.
Qed.

Lemma non_success_status_witness :
  fst (createUserStory Sample.unauthorized Sample.cfg Sample.US1 start)
  = Returns (Some (errorString
      "failed to create user story, status: 401 Unauthorized with message: boom"))
  /\ fst (createTask Sample.unauthorized Sample.cfg 100 Sample.T1 Sample.US1 start)
     = Returns (Some (errorString "failed to create task, status: 401 Unauthorized")).
Proof.
  destruct (non_success_status_errors Sample.unauthorized Sample.cfg start
              (mkResponse "401 Unauthorized" 401 Sample.body_message)
              eq_refl eq_refl) as [Hstory Htask].
  split.
  - apply (Hstory Sample.US1 eq_refl eq_refl "boom"). vm_compute. reflexivity.
  - apply (Htask 100 Sample.T1 Sample.US1 eq_refl eq_refl).
Defined.

(** C6.  On a status other than 200 and 201 the error should surface
    the [message] of the decoded body, or the status line when the body
    does not decode.  Each function breaks this where the other one
    keeps it.  A task refused with 400 and the body [{message: boom}]:
    the error of [createTask] carries the status line and does not
    surface [boom], which [createUserStory] reports.  A story refused
    with 401 and a body that is not JSON: the error of
    [createUserStory], and the error it wraps, do not surface the status
    line [401 Unauthorized], which [createTask] reports. *)
Lemma error_body_not_surfaced :
  (json_Decode Sample.bad_request Sample.body_message
   = inr {[ "message" := JString "boom" ]}
   /\ fst (createTask Sample.bad_request Sample.cfg 100 Sample.T1 Sample.US1 start)
      = Returns (Some (errorString "failed to create task, status: 400 Bad Request"))
   /\ surfaces "boom"
        (errorString "failed to create task, status: 400 Bad Request") = false)
  /\
  (json_Decode Sample.unauthorized_html Sample.body_html
   = inl (errorString "invalid character '<' looking for beginning of value")
   /\ fst (createUserStory Sample.unauthorized_html Sample.cfg Sample.US1 start)
      = Returns (Some (wrapError
          "failed to parse response: invalid character '<' looking for beginning of value"
          (errorString "invalid character '<' looking for beginning of value")))
   /\ surfaces "401 Unauthorized"
        (wrapError
          "failed to parse response: invalid character '<' looking for beginning of value"
          (errorString "invalid character '<' looking for beginning of value"))
      = false).
Proof. vm_compute. repeat split; reflexivity. Qed.

(** ** The requests of a story and of a batch *)

(** What [createUserStory] sends: the request of the story and, under
    the identifier the service assigned, requests of its tasks. *)
Lemma issued_createUserStory env cfg us s req :
  req ∈ issued (createUserStory env cfg us) s ->
  req = story_request cfg us
  \/ exists id t,
       assigned_id env cfg us (sent s) = Some id
       /\ t ∈ UserStory.Tasks us
       /\ req = task_request cfg id t us.
Proof.
  pose proof (createUserStory_run env cfg us s) as R.
  destruct (assigned_id env cfg us (sent s)) as [id|].
  - destruct R as (es & Hrun & _).
    rewrite (issued_of_sent _ s (story_request cfg us
               :: task_calls env cfg id us (UserStory.Tasks us)))
      by (rewrite Hrun; reflexivity).
    intros [->|Hin]%elem_of_cons; [left; reflexivity|]. right.
    unfold task_calls in Hin.
    destruct http_NewRequestWithContext; [inversion Hin|].
    apply list_elem_of_fmap in Hin as (t & -> & Ht). eauto.
  - destruct R as [_ [Hs | Hs]].
    + rewrite <- (app_nil_r (sent s)) in Hs. apply issued_of_sent in Hs.
      rewrite Hs. intros Hin. inversion Hin.
    + apply issued_of_sent in Hs. rewrite Hs.
      intros ->%list_elem_of_singleton. left; reflexivity.
Qed.

Lemma createUserStory_extends env cfg us s :
  sent (snd (createUserStory env cfg us s))
  = sent s ++ issued (createUserStory env cfg us) s.
Proof.
  pose proof (createUserStory_run env cfg us s) as R.
  destruct (assigned_id env cfg us (sent s)) as [id|].
  - destruct R as (es & Hrun & _).
    erewrite issued_of_sent; rewrite Hrun; reflexivity.
  - destruct R as [_ [Hs | Hs]].
    + rewrite <- (app_nil_r (sent s)) in Hs.
      rewrite (issued_of_sent _ _ _ Hs). exact Hs.
    + rewrite (issued_of_sent _ _ _ Hs). exact Hs.
Qed.

Lemma create_stories_cons env cfg us stories s :
  create_stories env cfg (us :: stories) s
  = match createUserStory env cfg us s with
    | (Returns e, s1) => create_stories env cfg stories (after_story us e s1)
    | (Panics v, s1) => (Panics v, s1)
    end.
Proof.
  unfold create_stories. cbn [for_range]. unfold bind at 1 2.
  destruct (createUserStory env cfg us s) as [[[err|]|v] s1]; reflexivity.
Qed.

Lemma create_stories_app env cfg pre post s0 s1 :
  create_stories env cfg pre s0 = (Returns tt, s1) ->
  create_stories env cfg (pre ++ post) s0 = create_stories env cfg post s1.
Proof.
  unfold create_stories. intros Hpre.
  rewrite for_range_app. unfold bind at 1. rewrite Hpre. reflexivity.
Qed.

Lemma sent_after_story us e s : sent (after_story us e s) = sent s.
Proof. destruct e; reflexivity. Qed.

Lemma create_stories_extends env cfg stories s :
  exists rest, sent (snd (create_stories env cfg stories s)) = sent s ++ rest.
Proof.
  revert s. induction stories as [|us stories IH]; intros s.
  - exists []. cbn. rewrite app_nil_r. reflexivity.
  - rewrite create_stories_cons.
    pose proof (createUserStory_extends env cfg us s) as Hus.
    destruct (createUserStory env cfg us s) as [[e|v] s1]; cbn [snd] in Hus.
    + destruct (IH (after_story us e s1)) as [rest Hrest].
      eexists. rewrite Hrest, sent_after_story, Hus, <- app_assoc. reflexivity.
    + eexists. exact Hus.
Qed.

Lemma main_sent env cfg stories s :
  sent (snd (main env cfg stories s))
  = sent (snd (create_stories env cfg stories s)).
Proof.
  unfold main, bind, log.
  destruct (create_stories env cfg stories s) as [[[]|v] s1]; reflexivity.
Qed.

(** The story that follows the stories [pre] in a batch is created from
    the machine [pre] has left, and its requests stand in the trace of
    the batch right after theirs. *)
Lemma create_stories_segment env cfg pre us post s0 s1 :
  create_stories env cfg pre s0 = (Returns tt, s1) ->
  exists rest,
    sent (snd (create_stories env cfg (pre ++ us :: post) s0))
    = sent s1 ++ issued (createUserStory env cfg us) s1 ++ rest.
Proof.
  intros Hpre.
  rewrite (create_stories_app _ _ _ _ _ _ Hpre), create_stories_cons.
  pose proof (createUserStory_extends env cfg us s1) as Hus.
  destruct (createUserStory env cfg us s1) as [[e|v] s2] eqn:E; cbn [snd] in Hus.
  - destruct (create_stories_extends env cfg post (after_story us e s2))
      as [rest Hrest].
    exists rest. rewrite Hrest, sent_after_story, Hus, <- app_assoc. reflexivity.
  - exists []. rewrite app_nil_r. exact Hus.
Qed.

(** C1.  In a batch, take any story [us], the stories [pre] before it
    having been processed.  The requests [createUserStory] sends for
    [us] stand in the trace of [main] right after those sent before.
    Each of them is the request of [us] itself or the request of one of
    the tasks of [us], and then: the service answered the request of
    [us] with an object whose [id] is a number, the task's payload has
    one relation, its URL is built from the organization and that
    number, and it is the URL of no other identifier. *)
Theorem children_link_to_own_parent env cfg pre us post s0 s1 :
  create_stories env cfg pre s0 = (Returns tt, s1) ->
  (exists rest,
      sent (snd (main env cfg (pre ++ us :: post) s0))
      = sent s1 ++ issued (createUserStory env cfg us) s1 ++ rest)
  /\ forall req,
      req ∈ issued (createUserStory env cfg us) s1 ->
      req = story_request cfg us
      \/ exists resp m f t,
           client_Do env (sent s1) (story_request cfg us) = inr resp
           /\ json_Decode env (RespBody resp) = inr m
           /\ m !! "id" = Some (JNumber f)
           /\ t ∈ UserStory.Tasks us
           /\ req = task_request cfg (float64_to_int f) t us
           /\ relation_urls (Body req)
              = [parent_url (GetString cfg "devops.organization")
                            (float64_to_int f)]
           /\ forall n,
                parent_url (GetString cfg "devops.organization") n
                  ∈ relation_urls (Body req) ->
                n = float64_to_int f.
Proof.
  intros Hpre. split.
  - rewrite main_sent. apply create_stories_segment, Hpre.
  - intros req Hin.
    destruct (issued_createUserStory _ _ _ _ _ Hin) as [-> | (id & t & Hid & Ht & ->)];
      [left; reflexivity | right].
    apply assigned_id_Some in Hid
      as (_ & _ & resp & m & f & Hdo & _ & Hdec & Hm & ->).
    exists resp, m, f, t. repeat (split; [assumption || reflexivity|]).
    intros n Hn. change (relation_urls _) with
      [parent_url (GetString cfg "devops.organization") (float64_to_int f)] in Hn.
    apply list_elem_of_singleton in Hn. apply parent_url_inj in Hn. exact Hn.
Qed.

Lemma children_link_witness :
  create_stories Sample.two_parents Sample.cfg [Sample.US2] start
  = (Returns tt,
     snd (create_stories Sample.two_parents Sample.cfg [Sample.US2] start))
  /\ forall req,
       req ∈ issued (createUserStory Sample.two_parents Sample.cfg Sample.US1)
                    (snd (create_stories Sample.two_parents Sample.cfg
                                         [Sample.US2] start)) ->
       req = story_request Sample.cfg Sample.US1
       \/ exists f t,
            t ∈ UserStory.Tasks Sample.US1
            /\ req = task_request Sample.cfg (float64_to_int f) t Sample.US1
            /\ relation_urls (Body req)
               = [parent_url (GetString Sample.cfg "devops.organization")
                             (float64_to_int f)].
Proof.
  assert (H : create_stories Sample.two_parents Sample.cfg [Sample.US2] start
              = (Returns tt,
                 snd (create_stories Sample.two_parents Sample.cfg
                                     [Sample.US2] start)))
    by (vm_compute; reflexivity).
  split; [exact H|]. intros req Hin.
  destruct (children_link_to_own_parent Sample.two_parents Sample.cfg
              [Sample.US2] Sample.US1 [] start _ H) as [_ Hall].
  destruct (Hall req Hin) as [-> | (resp & m & f & t & _ & _ & _ & Ht & Hreq & Hurl & _)].
  - left; reflexivity.
  - right. exists f, t. repeat split; assumption.
Defined.

(** The trace of that batch: the task of US2 links to 201, the tasks of
    US1 link to 100. *)
Example two_parents_links :
  map (fun req => relation_urls (Body req))
      (sent (snd (main Sample.two_parents Sample.cfg
                       [Sample.US2; Sample.US1] start)))
  = [ [];
      ["https://dev.azure.com/org/_apis/wit/workItems/201"];
      [];
      ["https://dev.azure.com/org/_apis/wit/workItems/100"];
      ["https://dev.azure.com/org/_apis/wit/workItems/100"] ].
Proof. vm_compute. reflexivity. Qed.

(** C8.  The payload of a task carries one value for the area path, the
    area of the story passed along with the task, whatever the task;
    and every request [createUserStory] sends, for the story and for
    its tasks, carries the area of that story. *)
Theorem task_area_is_parent_area env cfg us s :
  (forall org pid t,
      values_at "/fields/System.AreaPath" (task_payload org pid t us)
      = [VString (UserStory.Area us)])
  /\ forall req,
       req ∈ issued (createUserStory env cfg us) s ->
       values_at "/fields/System.AreaPath" (Body req)
       = [VString (UserStory.Area us)].
Proof.
  split; [reflexivity|]. intros req Hin.
  destruct (issued_createUserStory _ _ _ _ _ Hin) as [-> | (id & t & _ & _ & ->)];
    reflexivity.
Qed.

(** C9.  Reading the payload of a story or of a task back yields the
    name, description, owner, priority and state of the record, as they
    are. *)
Theorem payload_keeps_record_fields us org pid t :
  read_back (story_payload us)
  = Some (UserStory.Name us, UserStory.Description us, UserStory.Owner us,
          UserStory.Priority us, UserStory.State us)
  /\ read_back (task_payload org pid t us)
     = Some (Task.Name t, Task.Description t, Task.Owner t,
             Task.Priority t, Task.State t).
Proof. split; reflexivity. Qed.

(** ** Fields that reach no request *)

Lemma for_range_agrees {A} (R : A -> A -> Prop) (b1 b2 : A -> Go unit) l1 l2 :
  Forall2 R l1 l2 ->
  (forall x y s, R x y -> b1 x s = b2 y s) ->
  forall s, for_range l1 b1 s = for_range l2 b2 s.
Proof.
  intros Hl Hb. induction Hl as [|x y l1 l2 Hxy Hl IH]; intros s.
  - reflexivity.
  - cbn [for_range]. unfold bind. rewrite (Hb x y s Hxy).
    destruct (b2 y s) as [[[]|v] s1]; [apply IH | reflexivity].
Qed.

Lemma createTask_agrees env cfg pid t1 t2 u1 u2 s :
  task_agrees t1 t2 -> UserStory.Area u1 = UserStory.Area u2 ->
  createTask env cfg pid t1 u1 s = createTask env cfg pid t2 u2 s.
Proof.
  intros (Hn & Hd & Ho & Hs & Hp) Ha.
  unfold createTask, task_payload. rewrite Hn, Hd, Ho, Hs, Hp, Ha. reflexivity.
Qed.

Lemma create_tasks_agrees env cfg pid u1 u2 s :
  story_agrees u1 u2 ->
  create_tasks env cfg pid u1 s = create_tasks env cfg pid u2 s.
Proof.
  intros (_ & _ & _ & _ & _ & Ha & _ & _ & _ & Hts). unfold create_tasks.
  apply (for_range_agrees task_agrees); [exact Hts|].
  intros t1 t2 s1 Ht. unfold bind.
  rewrite (createTask_agrees env cfg pid t1 t2 u1 u2 s1 Ht Ha).
  destruct Ht as (-> & _). reflexivity.
Qed.

Lemma createUserStory_agrees env cfg u1 u2 s :
  story_agrees u1 u2 ->
  createUserStory env cfg u1 s = createUserStory env cfg u2 s.
Proof.
  intros H. pose proof H as (Hn & Hd & Ho & Hs & Hp & Ha & _).
  unfold createUserStory, story_payload. rewrite Hn, Hd, Ho, Hs, Hp, Ha.
  destruct (String.eqb _ _ || _ || _); [reflexivity|].
  unfold bind. destruct (log _ _ _ s) as [[[]|v] s1]; [|reflexivity].
  destruct http_NewRequestWithContext; [reflexivity|].
  destruct (Do _ _ s1) as [[[err|resp]|v] s2]; try reflexivity.
  destruct (not_created resp); [reflexivity|].
  destruct (log _ _ _ s2) as [[[]|v] s3]; [|reflexivity].
  destruct json_Decode as [err|m]; [reflexivity|].
  destruct (assert_float64 _ s3) as [[f|v] s4]; [|reflexivity].
  rewrite (create_tasks_agrees env cfg (float64_to_int f) u1 u2 s4 H).
  reflexivity.
Qed.

(** C10.  Two batches whose stories differ at most in [Type], and whose
    tasks differ at most in [Type] and [Estimate], run alike against
    the same service and configuration: [main] sends the same requests
    in the same order, and indeed ends with the same outcome and the
    same log. *)
Theorem type_and_estimate_reach_no_request env cfg stories1 stories2 s :
  Forall2 story_agrees stories1 stories2 ->
  sent (snd (main env cfg stories1 s)) = sent (snd (main env cfg stories2 s))
  /\ main env cfg stories1 s = main env cfg stories2 s.
Proof.
  intros H.
  assert (E : main env cfg stories1 s = main env cfg stories2 s).
  { unfold main, create_stories, bind.
    rewrite (for_range_agrees story_agrees _
               (fun userStory =>
                  e <- createUserStory env cfg userStory ;;
                  match e with
                  | Some err =>
                      log ErrorLevel "Failed to create user story"
                          [("name", UserStory.Name userStory); zap_Error err]
                  | None => ret tt
                  end) _ _ H).
    - rewrite (Forall2_length _ _ _ H). reflexivity.
    - intros u1 u2 s1 Hu. unfold bind.
      rewrite (createUserStory_agrees env cfg u1 u2 s1 Hu).
      destruct Hu as (-> & _). reflexivity. }
  rewrite E. split; reflexivity.
Qed.

Lemma type_and_estimate_witness :
  Forall2 story_agrees [Sample.US1] [Sample.US1']
  /\ sent (snd (main Sample.scenario Sample.cfg [Sample.US1] start))
     = sent (snd (main Sample.scenario Sample.cfg [Sample.US1'] start)).
Proof.
  assert (H : Forall2 story_agrees [Sample.US1] [Sample.US1']).
  { repeat constructor. }
  split; [exact H|].
  apply (type_and_estimate_reach_no_request Sample.scenario Sample.cfg
           [Sample.US1] [Sample.US1'] start H).
Defined.

(** * Further properties *)

(** ** What a call sends and returns *)

Lemma createUserStory_sent env cfg us s :
  sent (snd (createUserStory env cfg us s))
  = sent s ++ story_calls env cfg us (sent s).
Proof.
  pose proof (createUserStory_run env cfg us s) as R.
  destruct (createUserStory env cfg us s) as [r s'] eqn:E. cbn [fst snd] in *.
  revert E R. unfold createUserStory, story_calls, assigned_id.
  change (String.eqb _ _ || _ || _) with (missing cfg).
  destruct (missing cfg) eqn:Hcfg.
  { intros [= <- <-] _. rewrite app_nil_r. reflexivity. }
  unfold bind at 1. unfold log at 1. cbn [sent logged].
  destruct http_NewRequestWithContext as [err|].
  { intros [= <- <-] _. rewrite app_nil_r. reflexivity. }
  unfold bind at 1. unfold Do at 1. cbn [sent logged].
  fold (story_request cfg us).
  destruct (client_Do env (sent s) (story_request cfg us)) as [err|resp].
  { intros [= <- <-] _. reflexivity. }
  destruct (not_created resp).
  { destruct (json_Decode env (RespBody resp)) as [err|m].
    - intros [= <- <-] _. reflexivity.
    - unfold bind, assert_string, panic, ret.
      destruct (m !! "message") as [[]|]; intros [= <- <-] _; reflexivity. }
  destruct (json_Decode env (RespBody resp)) as [err|m].
  { unfold bind, log, ret. intros [= <- <-] _. reflexivity. }
  destruct (m !! "id") as [[| |f| | |]|];
    try (unfold bind, log, assert_float64, panic;
         intros [= <- <-] _; reflexivity).
  intros _ (es & [= -> ->] & _). reflexivity.
Qed.

Lemma issued_createUserStory_eq env cfg us s :
  issued (createUserStory env cfg us) s = story_calls env cfg us (sent s).
Proof. apply issued_of_sent, createUserStory_sent. Qed.

Lemma not_created_false resp :
  not_created resp = false <-> StatusCode resp = 200 \/ StatusCode resp = 201.
Proof.
  unfold not_created, StatusOK, StatusCreated.
  destruct (Z.eqb_spec (StatusCode resp) 200), (Z.eqb_spec (StatusCode resp) 201);
    cbn; intuition (congruence || lia).
Qed.

(** X8.  [createTask] never panics, sends at most one request, and
    returns nil exactly when the configuration is complete, the request
    could be built and the service answered it with status 200 or 201;
    the body of the answer plays no part. *)
Theorem createTask_outcome env cfg pid t us s :
  exists e,
    fst (createTask env cfg pid t us s) = Returns e
    /\ (length (issued (createTask env cfg pid t us) s) <= 1)%nat
    /\ (e = None <->
        missing cfg = false
        /\ http_NewRequestWithContext env "POST"
             (task_url (GetString cfg "devops.organization")
                       (GetString cfg "devops.project")) = None
        /\ exists resp,
             client_Do env (sent s) (task_request cfg pid t us) = inr resp
             /\ (StatusCode resp = 200 \/ StatusCode resp = 201)).
Proof.
  unfold issued, createTask.
  change (String.eqb _ _ || _ || _) with (missing cfg).
  destruct (missing cfg) eqn:Hcfg.
  { eexists. split; [reflexivity|]. cbn [snd ret]. rewrite drop_all.
    split; [cbn; lia|]. split; [discriminate | intros (? & _); discriminate]. }
  destruct http_NewRequestWithContext as [err|] eqn:Hreq.
  { eexists. split; [reflexivity|]. cbn [snd ret]. rewrite drop_all.
    split; [cbn; lia|]. split; [discriminate | intros (_ & ? & _); discriminate]. }
  unfold bind, Do, ret, log. cbn [sent logged].
  fold (task_request cfg pid t us).
  destruct (client_Do env (sent s) (task_request cfg pid t us)) as [err|resp] eqn:Hdo.
  { eexists. split; [reflexivity|]. cbn [snd sent]. rewrite drop_app_length.
    split; [cbn; lia|].
    split; [discriminate | intros (_ & _ & ? & ? & _); discriminate]. }
  pose proof (not_created_false resp) as Hst.
  destruct (not_created resp) eqn:Hnc.
  - eexists. split; [reflexivity|]. cbn [snd sent]. rewrite drop_app_length.
    split; [cbn; lia|]. split; [discriminate|].
    intros (_ & _ & resp' & [= <-] & Hok). apply Hst in Hok. discriminate.
  - exists None. split; [reflexivity|]. cbn [snd sent]. rewrite drop_app_length.
    split; [cbn; lia|]. split; [|reflexivity].
    intros _. split; [reflexivity|]. split; [reflexivity|].
    exists resp. split; [reflexivity|]. apply Hst. reflexivity.
Qed.

(** X9.  [createUserStory] returns nil exactly when the story itself was
    created: complete configuration, request built, status 200 or 201,
    and a body that decodes to an object with a numeric [id].  What
    happens to the tasks plays no part. *)
Theorem createUserStory_nil_iff env cfg us s :
  fst (createUserStory env cfg us s) = Returns None
  <->
  missing cfg = false
  /\ http_NewRequestWithContext env "POST"
       (story_url (GetString cfg "devops.organization")
                  (GetString cfg "devops.project")) = None
  /\ exists resp m f,
       client_Do env (sent s) (story_request cfg us) = inr resp
       /\ (StatusCode resp = 200 \/ StatusCode resp = 201)
       /\ json_Decode env (RespBody resp) = inr m
       /\ m !! "id" = Some (JNumber f).
Proof.
  pose proof (createUserStory_run env cfg us s) as R.
  destruct (assigned_id env cfg us (sent s)) as [id|] eqn:E.
  - destruct R as (es & -> & _). split; [intros _ | reflexivity].
    apply assigned_id_Some in E
      as (Hcfg & Hreq & resp & m & f & Hdo & Hst & Hdec & Hid & _).
    do 2 (split; [assumption|]). exists resp, m, f.
    rewrite <- not_created_false. repeat split; assumption.
  - destruct R as [Hne _]. split; [intros H; contradiction|].
    intros (Hcfg & Hreq & resp & m & f & Hdo & Hst & Hdec & Hid).
    assert (assigned_id env cfg us (sent s) = Some (float64_to_int f)) as E'.
    { apply assigned_id_Some. do 2 (split; [assumption|]).
      exists resp, m, f. rewrite not_created_false. repeat split; assumption. }
    congruence.
Qed.

(** ** The batch *)

Lemma createUserStory_missing env cfg us s :
  missing cfg = true ->
  createUserStory env cfg us s = (Returns (Some missing_configuration), s).
Proof.
  intros Hm. unfold createUserStory.
  change (String.eqb _ _ || _ || _) with (missing cfg). rewrite Hm. reflexivity.
Qed.

(** With well-shaped answers [createUserStory] returns. *)
Lemma createUserStory_returns env cfg us s :
  well_shaped env cfg ->
  exists e, fst (createUserStory env cfg us s) = Returns e.
Proof.
  intros Hws. unfold createUserStory.
  change (String.eqb _ _ || _ || _) with (missing cfg).
  destruct (missing cfg) eqn:Hcfg; [eexists; reflexivity|].
  unfold bind at 1. unfold log at 1. cbn [sent logged].
  destruct http_NewRequestWithContext as [err|]; [eexists; reflexivity|].
  unfold bind at 1. unfold Do at 1. cbn [sent logged].
  fold (story_request cfg us).
  destruct (client_Do env (sent s) (story_request cfg us)) as [err|resp] eqn:Hdo;
    [eexists; reflexivity|].
  specialize (Hws (sent s) us resp).
  destruct (not_created resp).
  - destruct (json_Decode env (RespBody resp)) as [err|m];
      [eexists; reflexivity|].
    destruct (Hws m Hdo eq_refl) as [msg Hmsg].
    unfold bind, assert_string, ret. rewrite Hmsg. eexists; reflexivity.
  - unfold bind at 1. unfold log at 1. cbn [sent logged].
    destruct (json_Decode env (RespBody resp)) as [err|m];
      [eexists; reflexivity|].
    destruct (Hws m Hdo eq_refl) as [f Hf].
    unfold bind at 1. unfold assert_float64. rewrite Hf. unfold ret at 1.
    unfold create_tasks.
    match goal with |- context [bind (for_range _ _) _ ?s1] =>
      destruct (create_tasks_run env cfg (float64_to_int f) us
                  (UserStory.Tasks us) s1 Hcfg) as (es & Hrun & _)
    end.
    rewrite (bind_returns _ _ _ _ _ Hrun). eexists; reflexivity.
Qed.

Lemma create_stories_returns env cfg stories s :
  well_shaped env cfg ->
  fst (create_stories env cfg stories s) = Returns tt.
Proof.
  intros Hws. revert s. induction stories as [|us stories IH]; intros s.
  - reflexivity.
  - rewrite create_stories_cons.
    destruct (createUserStory_returns env cfg us s Hws) as [e He].
    destruct (createUserStory env cfg us s) as [r s1]. cbn [fst] in He.
    subst r. apply IH.
Qed.

(** The requests of a batch: those of its first story, then those of
    the stories after it unless the first one panicked. *)
Lemma issued_create_stories_cons env cfg us stories s :
  issued (create_stories env cfg (us :: stories)) s
  = issued (createUserStory env cfg us) s
    ++ match createUserStory env cfg us s with
       | (Returns e, s1) =>
           issued (create_stories env cfg stories) (after_story us e s1)
       | (Panics _, _) => []
       end.
Proof.
  pose proof (createUserStory_extends env cfg us s) as Hus.
  unfold issued at 1. rewrite create_stories_cons.
  destruct (createUserStory env cfg us s) as [[e|v] s1]; cbn [snd] in Hus.
  - destruct (create_stories_extends env cfg stories (after_story us e s1))
      as [rest Hrest].
    rewrite (issued_of_sent _ _ _ Hrest).
    rewrite Hrest, sent_after_story, Hus, <- app_assoc.
    apply drop_app_length.
  - cbn [snd]. rewrite Hus, app_nil_r. apply drop_app_length.
Qed.

Lemma issued_main env cfg stories s :
  issued (main env cfg stories) s = issued (create_stories env cfg stories) s.
Proof. unfold issued. rewrite main_sent. reflexivity. Qed.

Lemma issued_create_stories_nil env cfg s :
  issued (create_stories env cfg []) s = [].
Proof. unfold issued. cbn. apply drop_all. Qed.

(** Where a request of a batch comes from. *)
Lemma issued_create_stories_elem env cfg stories s req :
  req ∈ issued (create_stories env cfg stories) s ->
  exists us,
    us ∈ stories
    /\ (req = story_request cfg us
        \/ exists id t, t ∈ UserStory.Tasks us /\ req = task_request cfg id t us).
Proof.
  revert s. induction stories as [|us stories IH]; intros s.
  - rewrite issued_create_stories_nil. intros H. inversion H.
  - rewrite issued_create_stories_cons. intros [Hin|Hin]%elem_of_app.
    + exists us. split; [left|].
      destruct (issued_createUserStory _ _ _ _ _ Hin)
        as [-> | (id & t & _ & Ht & ->)]; [left; reflexivity | right; eauto].
    + destruct (createUserStory env cfg us s) as [[e|v] s1]; [|inversion Hin].
      destruct (IH _ Hin) as (us' & Hus' & H). exists us'.
      split; [right; exact Hus' | exact H].
Qed.

(** X1.  Every request [main] sends is the request of a story of the
    batch or the request of a task of such a story: nothing else ever
    goes out. *)
Theorem main_sends_only_its_records env cfg stories s req :
  req ∈ issued (main env cfg stories) s ->
  exists us,
    us ∈ stories
    /\ (req = story_request cfg us
        \/ exists id t, t ∈ UserStory.Tasks us /\ req = task_request cfg id t us).
Proof. rewrite issued_main. apply issued_create_stories_elem. Qed.

(** X2.  Every request [main] sends is a POST with the patch content
    type and basic auth with an empty user name and the configured
    credential, to the URL of stories or the URL of tasks of the
    configured organization and project. *)
Theorem main_requests_are_authenticated_posts env cfg stories s req :
  req ∈ issued (main env cfg stories) s ->
  Method req = "POST"
  /\ ContentType req = "application/json-patch+json"
  /\ BasicAuth req = (EmptyString, GetString cfg "devops.pat")
  /\ (URL req = story_url (GetString cfg "devops.organization")
                          (GetString cfg "devops.project")
      \/ URL req = task_url (GetString cfg "devops.organization")
                            (GetString cfg "devops.project")).
Proof.
  rewrite issued_main. intros Hin.
  destruct (issued_create_stories_elem _ _ _ _ _ Hin)
    as (us & _ & [-> | (id & t & _ & ->)]);
    repeat split; (left; reflexivity) || (right; reflexivity).
Qed.

Lemma story_calls_planned env cfg us hist :
  sublist (story_calls env cfg us hist)
          (story_request cfg us
             :: map (fun t => task_request cfg
                                (default 0 (assigned_id env cfg us hist)) t us)
                    (UserStory.Tasks us)).
Proof.
  unfold story_calls, task_calls.
  destruct (missing cfg); [apply sublist_nil_l|].
  destruct (http_NewRequestWithContext env "POST" (story_url _ _));
    [apply sublist_nil_l|].
  apply sublist_skip.
  destruct (assigned_id env cfg us hist) as [id|]; [|apply sublist_nil_l].
  destruct (http_NewRequestWithContext env "POST" (task_url _ _));
    [apply sublist_nil_l | reflexivity].
Qed.

Lemma plan_length cfg stories ids :
  length ids = length stories ->
  length (plan cfg stories ids) = records stories.
Proof.
  unfold plan, records. revert ids.
  induction stories as [|us stories IH]; intros [|i ids] Hlen;
    try discriminate Hlen; [reflexivity|].
  injection Hlen as Hlen. specialize (IH ids Hlen).
  cbn [zip_with concat length map sum_list sum_list_with].
  rewrite length_app. cbn [length]. rewrite length_map.
  unfold id in *. lia.
Qed.

Lemma create_stories_planned env cfg stories s :
  exists ids,
    length ids = length stories
    /\ sublist (issued (create_stories env cfg stories) s) (plan cfg stories ids).
Proof.
  revert s. induction stories as [|us stories IH]; intros s.
  - exists []. split; [reflexivity|].
    rewrite issued_create_stories_nil. constructor.
  - rewrite issued_create_stories_cons, issued_createUserStory_eq.
    pose proof (story_calls_planned env cfg us (sent s)) as Hus.
    destruct (createUserStory env cfg us s) as [[e|v] s1].
    + destruct (IH (after_story us e s1)) as (ids & Hlen & Hsub).
      exists (default 0 (assigned_id env cfg us (sent s)) :: ids).
      split; [cbn [length]; rewrite Hlen; reflexivity|].
      unfold plan. cbn [zip_with concat]. apply sublist_app; assumption.
    + exists (default 0 (assigned_id env cfg us (sent s))
              :: replicate (length stories) 0).
      split; [cbn [length]; rewrite length_replicate; reflexivity|].
      unfold plan. cbn [zip_with concat].
      apply sublist_app; [assumption | apply sublist_nil_l].
Qed.

(** X3.  [main] sends at most one request per record of the batch, a
    record being a story or a task, and in the order of the input: its
    requests are a subsequence of a list that holds exactly one request
    per record, each story's own request followed by the requests of its
    tasks under one identifier.  So no record is requested twice, there
    are no retries, and the requests are no more than the records. *)
Theorem main_sends_at_most_one_per_record env cfg stories s :
  exists ids,
    length ids = length stories
    /\ sublist (issued (main env cfg stories) s) (plan cfg stories ids)
    /\ length (plan cfg stories ids) = records stories
    /\ (length (issued (main env cfg stories) s) <= records stories)%nat.
Proof.
  rewrite issued_main.
  destruct (create_stories_planned env cfg stories s) as (ids & Hlen & Hsub).
  exists ids. pose proof (plan_length cfg stories ids Hlen) as Hplan.
  repeat split; try assumption.
  rewrite <- Hplan. apply sublist_length, Hsub.
Qed.

Lemma sublist_filter_mono {A} (P : A -> Prop) `{!forall x, Decision (P x)}
    (l1 l2 : list A) :
  sublist l1 l2 -> sublist (filter P l1) (filter P l2).
Proof.
  induction 1 as [|x l1 l2 _ IH|x l1 l2 _ IH].
  - constructor.
  - rewrite !filter_cons. destruct (decide (P x)); [apply sublist_skip|]; exact IH.
  - rewrite filter_cons. destruct (decide (P x)); [apply sublist_cons|]; exact IH.
Qed.

(** A trace that repeats the request of a story is no such subsequence,
    whatever the identifier. *)
Example repeated_request_is_not_planned i :
  ~ sublist [story_request Sample.cfg Sample.US1;
             story_request Sample.cfg Sample.US1]
            (plan Sample.cfg [Sample.US1] [i]).
Proof.
  intros H.
  apply (sublist_filter_mono
           (fun req => URL req = story_url "org" "proj")) in H.
  apply sublist_length in H. vm_compute in H. lia.
Qed.

Lemma scenario_issued :
  issued (main Sample.scenario Sample.cfg [Sample.US1]) start
  = [ story_request Sample.cfg Sample.US1;
      task_request Sample.cfg 100 Sample.T1 Sample.US1;
      task_request Sample.cfg 100 Sample.T2 Sample.US1 ].
Proof. vm_compute. reflexivity. Qed.

Lemma main_sends_only_its_records_witness :
  task_request Sample.cfg 100 Sample.T2 Sample.US1
    ∈ issued (main Sample.scenario Sample.cfg [Sample.US1]) start
  /\ exists us,
       us ∈ [Sample.US1]
       /\ (task_request Sample.cfg 100 Sample.T2 Sample.US1
             = story_request Sample.cfg us
           \/ exists id t,
                t ∈ UserStory.Tasks us
                /\ task_request Sample.cfg 100 Sample.T2 Sample.US1
                   = task_request Sample.cfg id t us).
Proof.
  assert (H : task_request Sample.cfg 100 Sample.T2 Sample.US1
                ∈ issued (main Sample.scenario Sample.cfg [Sample.US1]) start).
  { rewrite scenario_issued. do 2 apply list_elem_of_further.
    apply list_elem_of_here. }
  split; [exact H|].
  apply (main_sends_only_its_records Sample.scenario Sample.cfg
           [Sample.US1] start _ H).
Defined.

Lemma main_requests_witness :
  story_request Sample.cfg Sample.US1
    ∈ issued (main Sample.scenario Sample.cfg [Sample.US1]) start
  /\ Method (story_request Sample.cfg Sample.US1) = "POST"
  /\ ContentType (story_request Sample.cfg Sample.US1)
     = "application/json-patch+json"
  /\ BasicAuth (story_request Sample.cfg Sample.US1)
     = (EmptyString, GetString Sample.cfg "devops.pat")
  /\ (URL (story_request Sample.cfg Sample.US1)
      = story_url (GetString Sample.cfg "devops.organization")
                  (GetString Sample.cfg "devops.project")
      \/ URL (story_request Sample.cfg Sample.US1)
         = task_url (GetString Sample.cfg "devops.organization")
                    (GetString Sample.cfg "devops.project")).
Proof.
  assert (H : story_request Sample.cfg Sample.US1
                ∈ issued (main Sample.scenario Sample.cfg [Sample.US1]) start).
  { rewrite scenario_issued. apply list_elem_of_here. }
  split; [exact H|].
  apply (main_requests_are_authenticated_posts Sample.scenario Sample.cfg
           [Sample.US1] start _ H).
Defined.

Lemma create_stories_missing env cfg stories s :
  missing cfg = true ->
  create_stories env cfg stories s
  = (Returns tt,
     {| sent := sent s;
        logged := logged s
          ++ map (fun us => story_failure us missing_configuration) stories |}).
Proof.
  intros Hm. revert s. induction stories as [|us stories IH]; intros s.
  - cbn. rewrite app_nil_r. destruct s; reflexivity.
  - rewrite create_stories_cons, (createUserStory_missing _ _ _ _ Hm), IH.
    cbn [after_story sent logged map]. rewrite <- app_assoc. reflexivity.
Qed.

(** X4.  With an empty organization, project or credential [main] does
    not stop early: it sends nothing, logs the configuration error once
    per story, returns, and closes with the line that counts every story
    of the input as created. *)
Theorem main_without_configuration env cfg stories s :
  missing cfg = true ->
  main env cfg stories s
  = (Returns tt,
     {| sent := sent s;
        logged := logged s
          ++ map (fun us => story_failure us missing_configuration) stories
          ++ [finish_entry stories] |}).
Proof.
  intros Hm. unfold main, bind.
  rewrite (create_stories_missing _ _ _ _ Hm). unfold log. cbn [sent logged].
  rewrite <- app_assoc. reflexivity.
Qed.

Lemma main_without_configuration_witness :
  missing Sample.no_pat = true
  /\ main Sample.scenario Sample.no_pat [Sample.US1; Sample.US2] start
     = (Returns tt,
        {| sent := [];
           logged := [ story_failure Sample.US1 missing_configuration;
                       story_failure Sample.US2 missing_configuration;
                       finish_entry [Sample.US1; Sample.US2] ] |}).
Proof.
  split; [reflexivity|].
  apply (main_without_configuration Sample.scenario Sample.no_pat
           [Sample.US1; Sample.US2] start eq_refl).
Defined.

(** X5.  Against a service with well-shaped answers [main] never
    panics: it returns, and its last log entry is the closing line,
    which reports the number of stories of the input and zero tasks
    whatever was created. *)
Theorem main_returns_and_reports env cfg stories s :
  well_shaped env cfg ->
  fst (main env cfg stories s) = Returns tt
  /\ last (logged (snd (main env cfg stories s))) = Some (finish_entry stories).
Proof.
  intros Hws. pose proof (create_stories_returns env cfg stories s Hws) as Hret.
  unfold main, bind.
  destruct (create_stories env cfg stories s) as [r s1]. cbn [fst] in Hret.
  subst r. unfold log. cbn [fst snd logged]. split; [reflexivity|].
  rewrite last_snoc. reflexivity.
Qed.

Lemma scenario_well_shaped : well_shaped Sample.scenario Sample.cfg.
Proof.
  intros hist us resp m Hdo Hdec.
  cbn [Sample.scenario Sample.scripted client_Do json_Decode] in Hdo, Hdec.
  destruct (length hist) as [|[|[|n]]]; cbn [nth] in Hdo.
  - injection Hdo as <-. vm_compute in Hdec. injection Hdec as <-.
    exists Sample.f100. reflexivity.
  - injection Hdo as <-. vm_compute in Hdec. injection Hdec as <-.
    exists Sample.f201. reflexivity.
  - injection Hdo as <-. vm_compute in Hdec. injection Hdec as <-.
    exists "boom". reflexivity.
  - destruct n; discriminate Hdo.
Defined.

Lemma main_returns_witness :
  well_shaped Sample.scenario Sample.cfg
  /\ fst (main Sample.scenario Sample.cfg [Sample.US1] start) = Returns tt
  /\ last (logged (snd (main Sample.scenario Sample.cfg [Sample.US1] start)))
     = Some (finish_entry [Sample.US1]).
Proof.
  split; [exact scenario_well_shaped|].
  apply (main_returns_and_reports Sample.scenario Sample.cfg [Sample.US1] start
           scenario_well_shaped).
Defined.

Lemma filter_story_url_task_calls env cfg id us ts :
  filter (fun req => URL req = story_url (GetString cfg "devops.organization")
                                         (GetString cfg "devops.project"))
         (task_calls env cfg id us ts) = [].
Proof.
  unfold task_calls. destruct http_NewRequestWithContext; [reflexivity|].
  induction ts as [|t ts IH]; [reflexivity|].
  cbn [map]. rewrite filter_cons_False; [exact IH|].
  cbn [task_request post URL]. intros H. symmetry in H.
  exact (story_url_not_task_url _ _ H).
Qed.

(** X6.  A story that fails with an error does not stop the batch:
    against a service with well-shaped answers, with a complete
    configuration and a request constructor that accepts the URL of
    stories, the requests [main] sends to that URL are the requests of
    all the stories of the batch, each once and in the order of the
    input. *)
Theorem every_story_is_requested env cfg stories s :
  well_shaped env cfg ->
  missing cfg = false ->
  http_NewRequestWithContext env "POST"
    (story_url (GetString cfg "devops.organization")
               (GetString cfg "devops.project")) = None ->
  filter (fun req => URL req = story_url (GetString cfg "devops.organization")
                                         (GetString cfg "devops.project"))
         (issued (main env cfg stories) s)
  = map (story_request cfg) stories.
Proof.
  intros Hws Hcfg Hreq. rewrite issued_main. revert s.
  induction stories as [|us stories IH]; intros s.
  - rewrite issued_create_stories_nil. reflexivity.
  - rewrite issued_create_stories_cons, filter_app, issued_createUserStory_eq.
    unfold story_calls. rewrite Hcfg, Hreq.
    rewrite filter_cons_True by reflexivity.
    assert (Htasks :
      filter (fun req => URL req = story_url (GetString cfg "devops.organization")
                                             (GetString cfg "devops.project"))
             match assigned_id env cfg us (sent s) with
             | Some id => task_calls env cfg id us (UserStory.Tasks us)
             | None => []
             end = []).
    { destruct (assigned_id env cfg us (sent s));
        [apply filter_story_url_task_calls | reflexivity]. }
    rewrite Htasks.
    destruct (createUserStory_returns env cfg us s Hws) as [e He].
    destruct (createUserStory env cfg us s) as [r s1]. cbn [fst] in He. subst r.
    rewrite IH. reflexivity.
Qed.

Lemma every_story_is_requested_witness :
  well_shaped Sample.scenario Sample.cfg
  /\ missing Sample.cfg = false
  /\ filter (fun req => URL req
                        = story_url (GetString Sample.cfg "devops.organization")
                                    (GetString Sample.cfg "devops.project"))
            (issued (main Sample.scenario Sample.cfg [Sample.US1]) start)
     = map (story_request Sample.cfg) [Sample.US1].
Proof.
  split; [exact scenario_well_shaped|]. split; [reflexivity|].
  apply (every_story_is_requested Sample.scenario Sample.cfg [Sample.US1] start
           scenario_well_shaped eq_refl eq_refl).
Defined.

(** X7.  A refusal whose body decodes to an object without a string
    [message] (no such key, [null], a number, an object): the type
    assertion of line 158 panics, [createUserStory] returns no error. *)
Theorem refusal_without_message_panics env cfg us s resp m :
  missing cfg = false ->
  http_NewRequestWithContext env "POST"
    (story_url (GetString cfg "devops.organization")
               (GetString cfg "devops.project")) = None ->
  client_Do env (sent s) (story_request cfg us) = inr resp ->
  not_created resp = true ->
  json_Decode env (RespBody resp) = inr m ->
  (forall msg, m !! "message" <> Some (JString msg)) ->
  createUserStory env cfg us s
  = (Panics ("interface conversion: interface {} is "
             +:+ dynamic_type (m !! "message") +:+ ", not string"),
     {| sent := sent s ++ [story_request cfg us];
        logged := logged s ++
          [mkLog DebugLevel "Azure DevOps API URL"
                 [("url", story_url (GetString cfg "devops.organization")
                                    (GetString cfg "devops.project"))]] |}).
Proof.
  intros Hcfg Hreq Hdo Hst Hdec Hmsg. unfold createUserStory.
  change (String.eqb _ _ || _ || _) with (missing cfg). rewrite Hcfg, Hreq.
  unfold bind, log, Do. cbn [sent logged]. fold (story_request cfg us).
  rewrite Hdo, Hst, Hdec. unfold assert_string, panic.
  destruct (m !! "message") as [[| | |msg| |]|]; try reflexivity.
  destruct (Hmsg msg eq_refl).
Qed.

Lemma refusal_without_message_witness :
  fst (createUserStory Cases.not_found Sample.cfg Sample.US1 start)
  = Panics "interface conversion: interface {} is nil, not string".
Proof.
  rewrite (refusal_without_message_panics Cases.not_found Sample.cfg Sample.US1
             start (mkResponse "404 Not Found" 404 Sample.body_no_id) ∅
             eq_refl eq_refl eq_refl eq_refl eq_refl).
  - reflexivity.
  - intros msg H. discriminate H.
Defined.

(** X15.  A panic is not isolated.  When [createUserStory] panics on a
    story, [main] ends there with that panic: the stories after it are
    not processed and the closing line is not logged. *)
Theorem panic_ends_the_batch env cfg pre us post s0 s1 v :
  create_stories env cfg pre s0 = (Returns tt, s1) ->
  fst (createUserStory env cfg us s1) = Panics v ->
  main env cfg (pre ++ us :: post) s0
  = (Panics v, snd (createUserStory env cfg us s1)).
Proof.
  intros Hpre Hpanic. unfold main, bind.
  rewrite (create_stories_app _ _ _ _ _ _ Hpre), create_stories_cons.
  destruct (createUserStory env cfg us s1) as [r s2]. cbn [fst snd] in *.
  subst r. reflexivity.
Qed.

Lemma panic_ends_the_batch_witness :
  create_stories Sample.no_id Sample.cfg [] start = (Returns tt, start)
  /\ fst (createUserStory Sample.no_id Sample.cfg Sample.US1 start)
     = Panics "interface conversion: interface {} is nil, not float64"
  /\ main Sample.no_id Sample.cfg ([] ++ Sample.US1 :: [Sample.US2]) start
     = (Panics "interface conversion: interface {} is nil, not float64",
        snd (createUserStory Sample.no_id Sample.cfg Sample.US1 start)).
Proof.
  assert (H : fst (createUserStory Sample.no_id Sample.cfg Sample.US1 start)
              = Panics "interface conversion: interface {} is nil, not float64")
    by (vm_compute; reflexivity).
  split; [reflexivity|]. split; [exact H|].
  apply (panic_ends_the_batch Sample.no_id Sample.cfg [] Sample.US1 [Sample.US2]
           start start _ eq_refl H).
Defined.

(** X18.  A success status whose body does not decode: the story has
    been created by the service and [createUserStory] has logged so, yet
    it returns the decoding error and sends no request for any task. *)
Theorem created_but_undecodable env cfg us s resp cause :
  missing cfg = false ->
  http_NewRequestWithContext env "POST"
    (story_url (GetString cfg "devops.organization")
               (GetString cfg "devops.project")) = None ->
  client_Do env (sent s) (story_request cfg us) = inr resp ->
  not_created resp = false ->
  json_Decode env (RespBody resp) = inl cause ->
  createUserStory env cfg us s
  = (Returns (Some (wrapError ("failed to parse response: " +:+ Error cause) cause)),
     {| sent := sent s ++ [story_request cfg us];
        logged := logged s ++
          [ mkLog DebugLevel "Azure DevOps API URL"
                  [("url", story_url (GetString cfg "devops.organization")
                                     (GetString cfg "devops.project"))];
            mkLog InfoLevel "User story created successfully"
                  [("name", UserStory.Name us)] ] |}).
Proof.
  intros Hcfg Hreq Hdo Hst Hdec. unfold createUserStory.
  change (String.eqb _ _ || _ || _) with (missing cfg). rewrite Hcfg, Hreq.
  unfold bind, log, Do. cbn [sent logged]. fold (story_request cfg us).
  rewrite Hdo, Hst, Hdec. unfold ret, Errorf_w.
  cbv beta iota. cbn [sent logged]. rewrite <- app_assoc. reflexivity.
Qed.

Lemma created_but_undecodable_witness :
  fst (createUserStory
         (Sample.scripted [Sample.created Sample.body_html])
         Sample.cfg Sample.US1 start)
  = Returns (Some (wrapError
      "failed to parse response: invalid character '<' looking for beginning of value"
      (errorString "invalid character '<' looking for beginning of value"))).
Proof.
  rewrite (created_but_undecodable
             (Sample.scripted [Sample.created Sample.body_html])
             Sample.cfg Sample.US1 start
             (mkResponse "201 Created" 201 Sample.body_html)
             (errorString "invalid character '<' looking for beginning of value")
             eq_refl eq_refl eq_refl eq_refl eq_refl).
  reflexivity.
Defined.

(** ** The errors a call returns *)

(** X10.  The errors of [createTask] are of four kinds and no other: the
    configuration error; the cause the request constructor gave, wrapped
    as a failure to create the request; the cause the client gave,
    wrapped as a failure to send; the status line of an answer other
    than 200 and 201. *)
Theorem createTask_errors env cfg pid t us s e :
  fst (createTask env cfg pid t us s) = Returns (Some e) ->
  (missing cfg = true /\ e = missing_configuration)
  \/ (exists cause,
        http_NewRequestWithContext env "POST"
          (task_url (GetString cfg "devops.organization")
                    (GetString cfg "devops.project")) = Some cause
        /\ e = wrapError ("failed to create request: " +:+ Error cause) cause)
  \/ (exists cause,
        client_Do env (sent s) (task_request cfg pid t us) = inl cause
        /\ e = wrapError ("failed to send request: " +:+ Error cause) cause)
  \/ (exists resp,
        client_Do env (sent s) (task_request cfg pid t us) = inr resp
        /\ not_created resp = true
        /\ e = errorString ("failed to create task, status: " +:+ Status resp)).
Proof.
  unfold createTask.
  change (String.eqb _ _ || _ || _) with (missing cfg).
  destruct (missing cfg); [intros [= <-]; left; split; reflexivity|].
  destruct http_NewRequestWithContext as [cause|];
    [intros [= <-]; right; left; eauto|].
  unfold bind, Do, ret, log. cbn [sent logged fst].
  fold (task_request cfg pid t us).
  destruct (client_Do env (sent s) (task_request cfg pid t us)) as [cause|resp];
    [intros [= <-]; right; right; left; eauto|].
  destruct (not_created resp) eqn:Hst; [|discriminate].
  intros [= <-]. right; right; right. eauto.
Qed.

Lemma createTask_errors_witness :
  fst (createTask Cases.unreachable Sample.cfg 100 Sample.T1 Sample.US1 start)
  = Returns (Some (wrapError "failed to send request: connection refused"
                             (errorString "connection refused")))
  /\ exists cause,
       client_Do Cases.unreachable (sent start)
                 (task_request Sample.cfg 100 Sample.T1 Sample.US1) = inl cause
       /\ wrapError "failed to send request: connection refused"
                    (errorString "connection refused")
          = wrapError ("failed to send request: " +:+ Error cause) cause.
Proof.
  assert (H : fst (createTask Cases.unreachable Sample.cfg 100
                              Sample.T1 Sample.US1 start)
              = Returns (Some (wrapError "failed to send request: connection refused"
                                         (errorString "connection refused"))))
    by (vm_compute; reflexivity).
  split; [exact H|].
  destruct (createTask_errors Cases.unreachable Sample.cfg 100
              Sample.T1 Sample.US1 start _ H)
    as [[Hm _] | [(cause & Hc & _) | [Hsend | (resp & Hr & _)]]].
  - discriminate Hm.
  - discriminate Hc.
  - exact Hsend.
  - discriminate Hr.
Defined.

(** X11.  The errors of [createUserStory] are of five kinds and no
    other: the configuration error; the constructor's cause wrapped as a
    failure to create the request; the client's cause wrapped as a
    failure to send; the decoder's cause wrapped as a failure to parse,
    on a refusal as on a success; the status line and [message] of a
    refusal.  No error of a task is among them. *)
Theorem createUserStory_errors env cfg us s e :
  fst (createUserStory env cfg us s) = Returns (Some e) ->
  (missing cfg = true /\ e = missing_configuration)
  \/ (exists cause,
        http_NewRequestWithContext env "POST"
          (story_url (GetString cfg "devops.organization")
                     (GetString cfg "devops.project")) = Some cause
        /\ e = wrapError ("failed to create request: " +:+ Error cause) cause)
  \/ (exists cause,
        client_Do env (sent s) (story_request cfg us) = inl cause
        /\ e = wrapError ("failed to send request: " +:+ Error cause) cause)
  \/ (exists resp cause,
        client_Do env (sent s) (story_request cfg us) = inr resp
        /\ json_Decode env (RespBody resp) = inl cause
        /\ e = wrapError ("failed to parse response: " +:+ Error cause) cause)
  \/ (exists resp m msg,
        client_Do env (sent s) (story_request cfg us) = inr resp
        /\ not_created resp = true
        /\ json_Decode env (RespBody resp) = inr m
        /\ m !! "message" = Some (JString msg)
        /\ e = errorString ("failed to create user story, status: "
                            +:+ Status resp +:+ " with message: " +:+ msg)).
Proof.
  pose proof (createUserStory_run env cfg us s) as R.
  destruct (createUserStory env cfg us s) as [r s'] eqn:E. cbn [fst snd] in *.
  intros ->. revert E R. unfold createUserStory, assigned_id.
  change (String.eqb _ _ || _ || _) with (missing cfg).
  destruct (missing cfg); [intros [= <- <-] _; left; split; reflexivity|].
  unfold bind at 1. unfold log at 1. cbn [sent logged].
  destruct http_NewRequestWithContext as [cause|];
    [intros [= <- <-] _; right; left; eauto|].
  unfold bind at 1. unfold Do at 1. cbn [sent logged].
  fold (story_request cfg us).
  destruct (client_Do env (sent s) (story_request cfg us)) as [cause|resp];
    [intros [= <- <-] _; right; right; left; eauto|].
  destruct (not_created resp) eqn:Hst.
  { destruct (json_Decode env (RespBody resp)) as [cause|m] eqn:Hdec.
    - intros [= <- <-] _. do 3 right. left. eauto.
    - unfold bind, assert_string, panic, ret.
      destruct (m !! "message") as [[| | |msg| |]|] eqn:Hmsg; try discriminate.
      intros [= <- <-] _. do 4 right. exists resp, m, msg.
      repeat split; assumption. }
  destruct (json_Decode env (RespBody resp)) as [cause|m] eqn:Hdec.
  { unfold bind, log, ret. intros [= <- <-] _. do 3 right. left. eauto. }
  destruct (m !! "id") as [[| |f| | |]|];
    try (unfold bind, log, assert_float64, panic; discriminate).
  intros _ (es & [=] & _).
Qed.

Lemma createUserStory_errors_witness :
  fst (createUserStory Cases.bad_url Sample.cfg Sample.US1 start)
  = Returns (Some (wrapError "failed to create request: parse: invalid URL escape"
                             (errorString "parse: invalid URL escape")))
  /\ exists cause,
       http_NewRequestWithContext Cases.bad_url "POST"
         (story_url (GetString Sample.cfg "devops.organization")
                    (GetString Sample.cfg "devops.project")) = Some cause
       /\ wrapError "failed to create request: parse: invalid URL escape"
                    (errorString "parse: invalid URL escape")
          = wrapError ("failed to create request: " +:+ Error cause) cause.
Proof.
  assert (H : fst (createUserStory Cases.bad_url Sample.cfg Sample.US1 start)
              = Returns (Some (wrapError
                  "failed to create request: parse: invalid URL escape"
                  (errorString "parse: invalid URL escape"))))
    by (vm_compute; reflexivity).
  split; [exact H|].
  destruct (createUserStory_errors Cases.bad_url Sample.cfg Sample.US1 start _ H)
    as [[Hm _] | [Hbuild | [(c & _ & He) | [(r & c & _ & _ & He)
                                           | (r & m & g & _ & _ & _ & _ & He)]]]].
  - vm_compute in Hm. discriminate Hm.
  - exact Hbuild.
  - cbn in He. discriminate He.
  - cbn in He. discriminate He.
  - discriminate He.
Defined.

(** X16.  A story's own request comes first: whatever [createUserStory]
    sends starts with the request of the story, and all that follows
    goes to the URL of tasks. *)
Theorem story_request_comes_first env cfg us s req rest :
  issued (createUserStory env cfg us) s = req :: rest ->
  req = story_request cfg us
  /\ Forall (fun r => URL r = task_url (GetString cfg "devops.organization")
                                      (GetString cfg "devops.project")) rest.
Proof.
  rewrite issued_createUserStory_eq. unfold story_calls, task_calls.
  destruct (missing cfg); [discriminate|].
  destruct (http_NewRequestWithContext env "POST" (story_url _ _));
    [discriminate|].
  intros [= <- <-]. split; [reflexivity|].
  destruct (assigned_id env cfg us (sent s)); [|constructor].
  destruct (http_NewRequestWithContext env "POST" (task_url _ _));
    [constructor|].
  apply Forall_forall. intros r (t & -> & _)%list_elem_of_fmap. reflexivity.
Qed.

Lemma story_request_comes_first_witness :
  issued (createUserStory Sample.scenario Sample.cfg Sample.US1) start
  = story_request Sample.cfg Sample.US1
      :: [ task_request Sample.cfg 100 Sample.T1 Sample.US1;
           task_request Sample.cfg 100 Sample.T2 Sample.US1 ]
  /\ Forall (fun r => URL r = task_url (GetString Sample.cfg "devops.organization")
                                      (GetString Sample.cfg "devops.project"))
            [ task_request Sample.cfg 100 Sample.T1 Sample.US1;
              task_request Sample.cfg 100 Sample.T2 Sample.US1 ].
Proof.
  assert (H : issued (createUserStory Sample.scenario Sample.cfg Sample.US1) start
              = story_request Sample.cfg Sample.US1
                  :: [ task_request Sample.cfg 100 Sample.T1 Sample.US1;
                       task_request Sample.cfg 100 Sample.T2 Sample.US1 ])
    by (vm_compute; reflexivity).
  split; [exact H|].
  apply (story_request_comes_first Sample.scenario Sample.cfg Sample.US1
           start _ _ H).
Defined.

(** ** Fields that reach neither a request nor the log *)

Lemma create_tasks_shows_same env cfg pid u1 u2 s :
  UserStory.Area u1 = UserStory.Area u2 ->
  Forall2 task_agrees (UserStory.Tasks u1) (UserStory.Tasks u2) ->
  create_tasks env cfg pid u1 s = create_tasks env cfg pid u2 s.
Proof.
  intros Ha Hts. unfold create_tasks.
  apply (for_range_agrees task_agrees); [exact Hts|].
  intros t1 t2 s1 Ht. unfold bind.
  rewrite (createTask_agrees env cfg pid t1 t2 u1 u2 s1 Ht Ha).
  destruct Ht as (-> & _). reflexivity.
Qed.

Lemma createUserStory_shows_same env cfg u1 u2 s :
  story_shows_same u1 u2 ->
  createUserStory env cfg u1 s = createUserStory env cfg u2 s.
Proof.
  intros (Hn & Hd & Ho & Hs & Hp & Ha & Hts).
  unfold createUserStory, story_payload. rewrite Hn, Hd, Ho, Hs, Hp, Ha.
  destruct (String.eqb _ _ || _ || _); [reflexivity|].
  unfold bind. destruct (log _ _ _ s) as [[[]|v] s1]; [|reflexivity].
  destruct http_NewRequestWithContext; [reflexivity|].
  destruct (Do _ _ s1) as [[[err|resp]|v] s2]; try reflexivity.
  destruct (not_created resp); [reflexivity|].
  destruct (log _ _ _ s2) as [[[]|v] s3]; [|reflexivity].
  destruct json_Decode as [err|m]; [reflexivity|].
  destruct (assert_float64 _ s3) as [[f|v] s4]; [|reflexivity].
  rewrite (create_tasks_shows_same env cfg (float64_to_int f) u1 u2 s4 Ha Hts).
  reflexivity.
Qed.

(** X12.  [Path], [Iteraction] and [Team] of a story reach nothing: two
    batches whose stories agree on name, description, owner, state,
    priority and area, and whose tasks agree up to type and estimate,
    make [main] send the same requests, write the same log and end
    alike.  No iteration is ever put in a payload. *)
Theorem path_iteration_team_reach_nothing env cfg stories1 stories2 s :
  Forall2 story_shows_same stories1 stories2 ->
  main env cfg stories1 s = main env cfg stories2 s.
Proof.
  intros H. unfold main, create_stories, bind.
  rewrite (for_range_agrees story_shows_same _
             (fun userStory =>
                e <- createUserStory env cfg userStory ;;
                match e with
                | Some err =>
                    log ErrorLevel "Failed to create user story"
                        [("name", UserStory.Name userStory); zap_Error err]
                | None => ret tt
                end) _ _ H).
  - rewrite (Forall2_length _ _ _ H). reflexivity.
  - intros u1 u2 s1 Hu. unfold bind.
    rewrite (createUserStory_shows_same env cfg u1 u2 s1 Hu).
    destruct Hu as (-> & _). reflexivity.
Qed.

Lemma path_iteration_team_witness :
  Forall2 story_shows_same [Sample.US1] [Cases.US1_elsewhere]
  /\ main Sample.scenario Sample.cfg [Sample.US1] start
     = main Sample.scenario Sample.cfg [Cases.US1_elsewhere] start.
Proof.
  assert (H : Forall2 story_shows_same [Sample.US1] [Cases.US1_elsewhere]).
  { repeat constructor. }
  split; [exact H|].
  apply (path_iteration_team_reach_nothing Sample.scenario Sample.cfg
           [Sample.US1] [Cases.US1_elsewhere] start H).
Defined.

(** ** [GetAdoSettings] *)

(** X13.  What [GetAdoSettings] returns is complete: the three fields
    are the configured organization, project and credential, none of
    them is empty, and the configuration passes the test of
    [createUserStory] and [createTask]. *)
Theorem GetAdoSettings_returns_complete cfg st :
  GetAdoSettings cfg = Returns st ->
  st = {| Organization := GetString cfg "devops.organization";
          Project := GetString cfg "devops.project";
          Pat := GetString cfg "devops.pat" |}
  /\ Organization st <> EmptyString
  /\ Project st <> EmptyString
  /\ Pat st <> EmptyString
  /\ missing cfg = false.
Proof.
  unfold GetAdoSettings.
  change (String.eqb _ _ || _ || _) with (missing cfg).
  destruct (missing cfg) eqn:Hm; [discriminate|].
  intros [= <-]. cbn [Organization Project Pat].
  unfold missing in Hm. rewrite !orb_false_iff, !String.eqb_neq in Hm.
  destruct Hm as [[Ho Hp] Hc]. repeat split; assumption.
Qed.

Lemma GetAdoSettings_returns_witness :
  GetAdoSettings Sample.cfg = Returns (mkAdoSettings "org" "proj" "secret")
  /\ missing Sample.cfg = false.
Proof.
  assert (H : GetAdoSettings Sample.cfg
              = Returns (mkAdoSettings "org" "proj" "secret")) by reflexivity.
  split; [exact H|].
  apply (GetAdoSettings_returns_complete Sample.cfg _ H).
Defined.

(** X17.  [GetAdoSettings] panics exactly when [createUserStory] and
    [createTask] would return the configuration error, that is when the
    organization, the project or the credential is empty. *)
Theorem GetAdoSettings_panics_iff cfg :
  (exists msg, GetAdoSettings cfg = Panics msg)
  <-> (forall env us s,
         createUserStory env cfg us s = (Returns (Some missing_configuration), s)).
Proof.
  unfold GetAdoSettings.
  change (String.eqb _ _ || _ || _) with (missing cfg). split.
  - destruct (missing cfg) eqn:Hm; [|intros [msg [=]]].
    intros _ env us s. apply createUserStory_missing, Hm.
  - intros H. destruct (missing cfg) eqn:Hm; [eauto|].
    specialize (H Cases.unreachable
                  (UserStory.mk EmptyString EmptyString EmptyString EmptyString
                                EmptyString 0 EmptyString EmptyString [] None
                                EmptyString) start).
    revert H. unfold createUserStory.
    change (String.eqb _ _ || _ || _) with (missing cfg). rewrite Hm.
    unfold bind, log. cbn [sent logged].
    destruct http_NewRequestWithContext; discriminate.
Qed.

Lemma empty_same_length (p q : string) :
  String.length p = String.length q ->
  String.eqb p EmptyString = String.eqb q EmptyString.
Proof. destruct p, q; cbn; intros H; (reflexivity || discriminate H). Qed.

(** X14.  The panic of [GetAdoSettings] shows the credential by its
    length alone: two configurations with the same organization, the
    same project and credentials of the same length panic with the same
    message. *)
Theorem GetAdoSettings_hides_credential cfg1 cfg2 msg :
  GetString cfg1 "devops.organization" = GetString cfg2 "devops.organization" ->
  GetString cfg1 "devops.project" = GetString cfg2 "devops.project" ->
  String.length (GetString cfg1 "devops.pat")
  = String.length (GetString cfg2 "devops.pat") ->
  GetAdoSettings cfg1 = Panics msg ->
  GetAdoSettings cfg2 = Panics msg.
Proof.
  intros Ho Hp Hlen. unfold GetAdoSettings.
  rewrite Ho, Hp, Hlen, (empty_same_length _ _ Hlen).
  destruct (String.eqb _ _ || _ || _); [trivial | discriminate].
Qed.

Lemma GetAdoSettings_hides_credential_witness :
  GetAdoSettings Cases.no_org_a
  = Panics "missing Azure DevOps configuration: organization: , project: proj, or PAT: 6"
  /\ GetAdoSettings Cases.no_org_b
     = Panics "missing Azure DevOps configuration: organization: , project: proj, or PAT: 6".
Proof.
  assert (H : GetAdoSettings Cases.no_org_a
              = Panics "missing Azure DevOps configuration: organization: , project: proj, or PAT: 6")
    by (vm_compute; reflexivity).
  split; [exact H|].
  apply (GetAdoSettings_hides_credential Cases.no_org_a Cases.no_org_b _
           eq_refl eq_refl eq_refl H).
Defined.
